(** * custom_vesync: the humidifier and binary-sensor adapters

    A shallow embedding of [custom_components/vesync/humidifier.py] and
    [custom_components/vesync/binary_sensor.py], and the properties the
    specification states about them.

    Layout: Python's insertion-ordered [dict] ([PyDict]); the constants the
    two modules import; the mode tables and the two translation functions;
    the vendor device and the world the adapter runs in; the humidifier
    adapter; the binary-sensor adapters and their discovery; then the
    theorems. *)

From Stdlib Require Import String List ZArith Bool Lia DecimalString.
Import ListNotations.
Open Scope string_scope.

(** ** Python dictionaries

    A Python [dict] keeps its keys in insertion order, and writing to a key
    that is already there replaces the value where it stands.  The reversed
    mode table is built by a comprehension over [items()], so which of two
    entries wins depends on that order: the dictionary is an association list
    without repeated keys, not an unordered finite map. *)
Module PyDict.
Section Dict.
Context {V : Type}.

Definition dict := list (string * V).

Definition empty : dict := [].

(** [d.get(k)]: the value at [k], or nothing. *)
Fixpoint get (k : string) (d : dict) : option V :=
  match d with
  | [] => None
  | (k', v) :: r => if String.eqb k k' then Some v else get k r
  end.

(** [k in d] *)
Definition contains (k : string) (d : dict) : bool :=
  match get k d with Some _ => true | None => false end.

(** [d[k] = v] *)
Fixpoint set (k : string) (v : V) (d : dict) : dict :=
  match d with
  | [] => [(k, v)]
  | (k', v') :: r =>
      if String.eqb k k' then (k', v) :: r else (k', v') :: set k v r
  end.

(** [d.items()], [d.keys()], [d.values()], in insertion order. *)
Definition items (d : dict) : list (string * V) := d.
Definition keys (d : dict) : list string := map fst d.
Definition values (d : dict) : list V := map snd d.

(** A display [{k1: v1, k2: v2, ...}] or a comprehension
    [{k: v for ...}]: the pairs are written one after the other. *)
Definition of_items (kvs : list (string * V)) : dict :=
  fold_left (fun d kv => set (fst kv) (snd kv) d) kvs empty.
End Dict.
Arguments dict : clear implicits.
End PyDict.

Abbreviation dict := PyDict.dict.

(** ** Imported constants

    [humidifier.py] imports the vendor mode names from [.const] and the host
    mode names from [homeassistant.components.humidifier.const]; neither
    module is part of the two files embedded here, so the seven strings are
    parameters of the development. *)
Record ModeConsts := {
  VS_MODE_AUTO : string;
  VS_MODE_HUMIDITY : string;
  VS_MODE_MANUAL : string;
  VS_MODE_SLEEP : string;
  MODE_AUTO : string;
  MODE_NORMAL : string;
  MODE_SLEEP : string
}.

(** The mode names are distinct identifiers on each side. *)
Definition consts_distinct (c : ModeConsts) : Prop :=
  NoDup [VS_MODE_AUTO c; VS_MODE_HUMIDITY c; VS_MODE_MANUAL c; VS_MODE_SLEEP c]
  /\ NoDup [MODE_AUTO c; MODE_NORMAL c; MODE_SLEEP c].

(** The names pyvesync and the host use, for concrete runs. *)
Definition vesync_consts : ModeConsts := {|
  VS_MODE_AUTO := "auto";
  VS_MODE_HUMIDITY := "humidity";
  VS_MODE_MANUAL := "manual";
  VS_MODE_SLEEP := "sleep";
  MODE_AUTO := "auto";
  MODE_NORMAL := "normal";
  MODE_SLEEP := "sleep"
|}.

Definition MAX_HUMIDITY : Z := 80.
Definition MIN_HUMIDITY : Z := 30.

(** ** Mode tables and translation *)
Section Modes.
Variable c : ModeConsts.

Definition VS_TO_HA_MODE_MAP : dict string :=
  PyDict.of_items
    [ (VS_MODE_AUTO c, MODE_AUTO c);
      (VS_MODE_HUMIDITY c, MODE_AUTO c);
      (VS_MODE_MANUAL c, MODE_NORMAL c);
      (VS_MODE_SLEEP c, MODE_SLEEP c) ].

(** [{v: k for k, v in VS_TO_HA_MODE_MAP.items()}] *)
Definition HA_TO_VS_MODE_MAP : dict string :=
  PyDict.of_items
    (map (fun kv => (snd kv, fst kv)) (PyDict.items VS_TO_HA_MODE_MAP)).

(** [_LOGGER.warning("Unknown mode '%s'", m)] *)
Definition unknown_mode_warning (m : string) : string :=
  "Unknown mode '" ++ m ++ "'".

(** The two lookups only read the tables and write to the logger: each
    returns its result together with the warnings it logged. *)
Definition _get_ha_mode (vs_mode : string) : option string * list string :=
  let ha_mode := PyDict.get vs_mode VS_TO_HA_MODE_MAP in
  match ha_mode with
  | None => (ha_mode, [unknown_mode_warning vs_mode])
  | Some _ => (ha_mode, [])
  end.

Definition _get_vs_mode (ha_mode : string) : option string * list string :=
  let vs_mode := PyDict.get ha_mode HA_TO_VS_MODE_MAP in
  match vs_mode with
  | None => (vs_mode, [unknown_mode_warning ha_mode])
  | Some _ => (vs_mode, [])
  end.

(** Vendor to host and back, as the round trip of the specification. *)
Definition vs_round_trip (vs_mode : string) : option string :=
  match fst (_get_ha_mode vs_mode) with
  | Some ha_mode => fst (_get_vs_mode ha_mode)
  | None => None
  end.
End Modes.


(** ** Python values, exceptions and the vendor device *)

(** The values the vendor library stores under a state key or attribute. *)
Inductive PyVal :=
| VNone
| VBool (b : bool)
| VInt (z : Z)
| VStr (s : string).

Inductive Exn :=
| ValueError (msg : string)
| KeyError (key : string)
| IndexError
| Exception (msg : string).

Inductive Result (A : Type) :=
| Ok (a : A)
| Raise (e : Exn).
Arguments Ok {A} a.
Arguments Raise {A} e.

(** The vendor classes [humidifier.py] tells apart; every other class of the
    vendor library is [OtherDevice]. *)
Inductive DeviceClass :=
| VeSyncHumid200300S
| VeSyncSuperior6000S
| OtherDevice.

(** The vendor device object, as far as the two modules read it.  [attrs]
    holds the plain attributes that are looked up by name ([hasattr],
    [getattr]): [fryer_status], the fryer flags, [mode], [device_status],
    [enabled].  [mist_modes = None] is Python's [None]. *)
Record Device := {
  device_class : DeviceClass;
  uuid : string;
  attrs : dict PyVal;
  details : dict PyVal;
  config : dict PyVal;
  mist_modes : option (list string)
}.

Definition hasattr (dev : Device) (name : string) : bool :=
  PyDict.contains name (attrs dev).

(** [getattr(dev, name, default)] *)
Definition getattr (dev : Device) (name : string) (default : PyVal) : PyVal :=
  match PyDict.get name (attrs dev) with
  | Some v => v
  | None => default
  end.

(** ** The vendor library

    The command methods of the device object belong to pyvesync.  Each one
    answers with a success flag and may change the device. *)
Class VendorLibrary := {
  vs_set_humidity : Device -> Z -> bool * Device;
  vs_set_humidity_mode : Device -> option string -> bool * Device;
  vs_turn_on : Device -> bool * Device;
  vs_turn_off : Device -> bool * Device
}.

Inductive VendorCall :=
| CallSetHumidity (humidity : Z)
| CallSetHumidityMode (mode : option string)
| CallTurnOn
| CallTurnOff.

(** ** The world of one humidifier adapter

    The adapter holds a reference to the device; [available_modes] is a
    [cached_property], its slot is [cached_available_modes].  The vendor
    calls made, the state refreshes scheduled with the host and the warnings
    logged are recorded so that theorems can speak about them. *)
Record World := {
  smarthumidifier : Device;
  cached_available_modes : option (list string);
  vendor_calls : list VendorCall;
  scheduled_updates : nat;
  warnings : list string
}.

Definition with_device (d : Device) (w : World) : World :=
  {| smarthumidifier := d;
     cached_available_modes := cached_available_modes w;
     vendor_calls := vendor_calls w;
     scheduled_updates := scheduled_updates w;
     warnings := warnings w |}.

Definition with_cache (l : list string) (w : World) : World :=
  {| smarthumidifier := smarthumidifier w;
     cached_available_modes := Some l;
     vendor_calls := vendor_calls w;
     scheduled_updates := scheduled_updates w;
     warnings := warnings w |}.

Definition with_call (call : VendorCall) (w : World) : World :=
  {| smarthumidifier := smarthumidifier w;
     cached_available_modes := cached_available_modes w;
     vendor_calls := vendor_calls w ++ [call];
     scheduled_updates := scheduled_updates w;
     warnings := warnings w |}.

Definition with_update (w : World) : World :=
  {| smarthumidifier := smarthumidifier w;
     cached_available_modes := cached_available_modes w;
     vendor_calls := vendor_calls w;
     scheduled_updates := S (scheduled_updates w);
     warnings := warnings w |}.

Definition with_warnings (ws : list string) (w : World) : World :=
  {| smarthumidifier := smarthumidifier w;
     cached_available_modes := cached_available_modes w;
     vendor_calls := vendor_calls w;
     scheduled_updates := scheduled_updates w;
     warnings := warnings w ++ ws |}.

(** ** A state and exception monad for the adapter's methods *)
Definition M (A : Type) : Type := World -> Result A * World.

Definition ret {A} (a : A) : M A := fun w => (Ok a, w).

Definition bind {A B} (m : M A) (f : A -> M B) : M B :=
  fun w =>
    match m w with
    | (Ok a, w') => f a w'
    | (Raise e, w') => (Raise e, w')
    end.

Definition raise {A} (e : Exn) : M A := fun w => (Raise e, w).

Definition get_world : M World := fun w => (Ok w, w).

(** Run a function that only logs. *)
Definition logged {A} (r : A * list string) : M A :=
  fun w => (Ok (fst r), with_warnings (snd r) w).

Declare Scope py_scope.
Delimit Scope py_scope with py.
Notation "x <- m ;; k" := (bind m (fun x => k))
  (at level 61, m at next level, right associativity) : py_scope.
Notation "m ;;; k" := (bind m (fun _ => k))
  (at level 61, right associativity) : py_scope.

(** [h in range(lo, hi)] for an integer [h] *)
Definition in_range (lo hi h : Z) : bool := (lo <=? h)%Z && (h <? hi)%Z.

(** [m in modes] for a list of strings *)
Definition str_in (m : string) (modes : list string) : bool :=
  existsb (String.eqb m) modes.

(** ** The humidifier adapter: [VeSyncHumidifierHA] *)
Section Humidifier.
Variable c : ModeConsts.
Context {vendor : VendorLibrary}.

Local Open Scope py_scope.

Definition _attr_max_humidity : Z := MAX_HUMIDITY.
Definition _attr_min_humidity : Z := MIN_HUMIDITY.
Definition max_humidity : Z := _attr_max_humidity.
Definition min_humidity : Z := _attr_min_humidity.

(** [__init__]: a device of another class is refused. *)
Definition VeSyncHumidifierHA (humidifier : Device) : Result World :=
  match device_class humidifier with
  | OtherDevice =>
      Raise (Exception
        "This humidifier is not compatible with the current release of CustomVeSync")
  | _ =>
      Ok {| smarthumidifier := humidifier;
            cached_available_modes := None;
            vendor_calls := [];
            scheduled_updates := 0;
            warnings := [] |}
  end.

(** The loop of [available_modes]; [modes] is the list built so far. *)
Fixpoint available_modes_loop (todo modes : list string) : M (list string) :=
  match todo with
  | [] => ret modes
  | vs_mode :: rest =>
      ha_mode <- logged (_get_ha_mode c vs_mode) ;;
      match ha_mode with
      | None => available_modes_loop rest modes
      | Some m => available_modes_loop rest (modes ++ [m])
      end
  end.

(** The body of the property. *)
Definition available_modes_body : M (list string) :=
  w <- get_world ;;
  match mist_modes (smarthumidifier w) with
  | None => ret []
  | Some vs_modes => available_modes_loop vs_modes []
  end.

(** [@cached_property]: the body runs on the first read only. *)
Definition available_modes : M (list string) :=
  w <- get_world ;;
  match cached_available_modes w with
  | Some modes => ret modes
  | None =>
      modes <- available_modes_body ;;
      (fun w' => (Ok modes, with_cache modes w'))
  end.

Definition unique_info : M string :=
  w <- get_world ;; ret (uuid (smarthumidifier w)).

Definition schedule_update_ha_state : M unit :=
  fun w => (Ok tt, with_update w).

(** Calls into the vendor library: the call is recorded, the device is
    whatever the library leaves behind. *)
Definition smarthumidifier_set_humidity (humidity : Z) : M bool :=
  fun w =>
    let (ok, d) := vs_set_humidity (smarthumidifier w) humidity in
    (Ok ok, with_device d (with_call (CallSetHumidity humidity) w)).

Definition smarthumidifier_set_humidity_mode (mode : option string) : M bool :=
  fun w =>
    let (ok, d) := vs_set_humidity_mode (smarthumidifier w) mode in
    (Ok ok, with_device d (with_call (CallSetHumidityMode mode) w)).

Definition smarthumidifier_turn_on : M bool :=
  fun w =>
    let (ok, d) := vs_turn_on (smarthumidifier w) in
    (Ok ok, with_device d (with_call CallTurnOn w)).

Definition smarthumidifier_turn_off : M bool :=
  fun w =>
    let (ok, d) := vs_turn_off (smarthumidifier w) in
    (Ok ok, with_device d (with_call CallTurnOff w)).

(** The messages of the two validation errors are plain strings in the
    source (no [f] prefix), so the braces are not filled in. *)
Definition set_humidity (humidity : Z) : M unit :=
  if negb (in_range min_humidity (max_humidity + 1) humidity) then
    raise (ValueError
      "{humidity} is not between {self.min_humidity} and {self.max_humidity} (inclusive)")
  else
    ok <- smarthumidifier_set_humidity humidity ;;
    if ok then schedule_update_ha_state
    else raise (ValueError "An error occurred while setting humidity.").

Definition set_mode (mode : string) : M unit :=
  modes <- available_modes ;;
  if negb (str_in mode modes) then
    raise (ValueError
      "{mode} is not one of the valid available modes: {self.available_modes}")
  else
    vs_mode <- logged (_get_vs_mode c mode) ;;
    ok <- smarthumidifier_set_humidity_mode vs_mode ;;
    if ok then schedule_update_ha_state
    else raise (ValueError "An error occurred while setting mode.").

Definition turn_on : M unit :=
  success <- smarthumidifier_turn_on ;;
  if negb success then raise (ValueError "An error occurred while turning on.")
  else ret tt.

Definition turn_off : M unit :=
  success <- smarthumidifier_turn_off ;;
  if negb success then raise (ValueError "An error occurred while turning off.")
  else ret tt.
End Humidifier.

(** ** The binary-sensor adapters *)

(** Modelled from the spec: [has_feature] is imported from [.common], which
    is not among the embedded files.  The specification describes the test
    as the device exposing the capability, that is, the named state mapping
    of the device holding the key. *)
Definition has_feature (dev : Device) (dictionary attribute : string) : bool :=
  if String.eqb dictionary "details" then PyDict.contains attribute (details dev)
  else if String.eqb dictionary "config" then PyDict.contains attribute (config dev)
  else false.

Section BinarySensors.
(** The host's coordinator object, the identifier and the name the base
    entity class [VeSyncBaseEntity] of [.common] derives from the device,
    and the table of fryer sensors of [.const]: one entry per sensor, a
    sequence read at the indices 0 (attribute and suffix), 1 (name) and
    2 (icon). *)
Variable Coordinator : Type.
Variable base_unique_id : Device -> string.
Variable base_name : Device -> string.
Variable BINARY_SENSOR_TYPES_AIRFRYER : dict (list string).

Inductive BinarySensor :=
| VeSyncairfryerSensor (airfryer : Device) (coordinator : Coordinator)
    (stype : list string)
| VeSyncOutOfWaterSensor (humidifier : Device) (coordinator : Coordinator)
| VeSyncWaterTankLiftedSensor (humidifier : Device) (coordinator : Coordinator)
| VeSyncFilterOpenStateSensor (humidifier : Device) (coordinator : Coordinator).

(** The device an adapter wraps ([self.airfryer], [self.smarthumidifier]). *)
Definition sensor_device (e : BinarySensor) : Device :=
  match e with
  | VeSyncairfryerSensor d _ _ => d
  | VeSyncOutOfWaterSensor d _ => d
  | VeSyncWaterTankLiftedSensor d _ => d
  | VeSyncFilterOpenStateSensor d _ => d
  end.

(** [seq[i]] *)
Definition index (seq : list string) (i : nat) : Result string :=
  match nth_error seq i with
  | Some s => Ok s
  | None => Raise IndexError
  end.

(** [mapping[key]] *)
Definition subscript (mapping : dict PyVal) (key : string) : Result PyVal :=
  match PyDict.get key mapping with
  | Some v => Ok v
  | None => Raise (KeyError key)
  end.

Definition unique_id (e : BinarySensor) : Result string :=
  match e with
  | VeSyncairfryerSensor d _ stype =>
      match index stype 0 with
      | Ok s => Ok ((base_unique_id d ++ "-") ++ s)
      | Raise x => Raise x
      end
  | VeSyncOutOfWaterSensor d _ => Ok (base_unique_id d ++ "-out_of_water")
  | VeSyncWaterTankLiftedSensor d _ => Ok (base_unique_id d ++ "-water_tank_lifted")
  | VeSyncFilterOpenStateSensor d _ => Ok (base_unique_id d ++ "-filter-open-state")
  end.

Definition name (e : BinarySensor) : Result string :=
  match e with
  | VeSyncairfryerSensor _ _ stype => index stype 1
  | VeSyncOutOfWaterSensor d _ => Ok (base_name d ++ " out of water")
  | VeSyncWaterTankLiftedSensor d _ => Ok (base_name d ++ " water tank lifted")
  | VeSyncFilterOpenStateSensor d _ => Ok (base_name d ++ " filter open state")
  end.

Definition is_on (e : BinarySensor) : Result PyVal :=
  match e with
  | VeSyncairfryerSensor d _ stype =>
      match index stype 0 with
      | Ok attribute => Ok (getattr d attribute (VBool false))
      | Raise x => Raise x
      end
  | VeSyncOutOfWaterSensor d _ => subscript (details d) "water_lacks"
  | VeSyncWaterTankLiftedSensor d _ => subscript (details d) "water_tank_lifted"
  | VeSyncFilterOpenStateSensor d _ => subscript (details d) "filter_open_state"
  end.

(** The adapters one device contributes, appended to [entities]. *)
Definition setup_device (coordinator : Coordinator)
    (entities : list BinarySensor) (dev : Device) : list BinarySensor :=
  let entities :=
    if hasattr dev "fryer_status" then
      fold_left
        (fun (es : list BinarySensor) stype =>
           (es ++ [VeSyncairfryerSensor dev coordinator stype])%list)
        (PyDict.values BINARY_SENSOR_TYPES_AIRFRYER) entities
    else entities in
  let entities :=
    if has_feature dev "details" "water_lacks"
    then (entities ++ [VeSyncOutOfWaterSensor dev coordinator])%list else entities in
  let entities :=
    if has_feature dev "details" "water_tank_lifted"
    then (entities ++ [VeSyncWaterTankLiftedSensor dev coordinator])%list else entities in
  let entities :=
    if has_feature dev "details" "filter_open_state"
    then (entities ++ [VeSyncFilterOpenStateSensor dev coordinator])%list else entities in
  entities.

(** [_setup_entities]: the list handed to [async_add_entities]. *)
Definition _setup_entities (devices : list Device) (coordinator : Coordinator)
    : list BinarySensor :=
  fold_left (setup_device coordinator) devices [].
End BinarySensors.

Arguments VeSyncairfryerSensor {Coordinator} airfryer coordinator stype.
Arguments VeSyncOutOfWaterSensor {Coordinator} humidifier coordinator.
Arguments VeSyncWaterTankLiftedSensor {Coordinator} humidifier coordinator.
Arguments VeSyncFilterOpenStateSensor {Coordinator} humidifier coordinator.
Arguments sensor_device {Coordinator} e.
Arguments unique_id {Coordinator} base_unique_id e.
Arguments name {Coordinator} base_name e.
Arguments is_on {Coordinator} e.
Arguments setup_device {Coordinator} BINARY_SENSOR_TYPES_AIRFRYER coordinator entities dev.
Arguments _setup_entities {Coordinator} BINARY_SENSOR_TYPES_AIRFRYER devices coordinator.

(** ** The specification's side

    Definitions that follow the wording of the specification, to compare the
    embedded code with. *)
Section SpecSide.
Variable c : ModeConsts.

(** Every vendor mode translated through the table, in order, the unknown
    ones dropped. *)
Definition translate_known (vs_modes : list string) : list string :=
  flat_map
    (fun vs => match PyDict.get vs (VS_TO_HA_MODE_MAP c) with
               | Some ha => [ha]
               | None => []
               end)
    vs_modes.

(** The warnings for the dropped entries. *)
Definition dropped_warnings (vs_modes : list string) : list string :=
  map unknown_mode_warning
    (filter (fun vs => negb (PyDict.contains vs (VS_TO_HA_MODE_MAP c))) vs_modes).

(** The cache slot is empty or holds what the body gives on the device as
    it is now. *)
Definition cache_current (w : World) : Prop :=
  match cached_available_modes w with
  | None => True
  | Some modes =>
      modes = match mist_modes (smarthumidifier w) with
              | None => []
              | Some vs_modes => translate_known vs_modes
              end
  end.

(** The cache slot is empty or holds host modes of the table only, as
    every list the body builds does. *)
Definition cache_sound (w : World) : Prop :=
  match cached_available_modes w with
  | None => True
  | Some modes =>
      forall m, In m modes -> In m (PyDict.values (VS_TO_HA_MODE_MAP c))
  end.
End SpecSide.

(** The three renaming rules of [extra_state_attributes], in their order:
    [rekey_rule T reserved k k'] says that the state key [k] is emitted as
    [k']. *)
Inductive rekey_rule (T : dict string) (reserved : dict PyVal)
  : string -> string -> Prop :=
| rule_renamed k k' :
    PyDict.get k T = Some k' ->
    rekey_rule T reserved k k'
| rule_prefixed k :
    PyDict.get k T = None ->
    PyDict.contains k reserved = true ->
    rekey_rule T reserved k ("vs_" ++ k)
| rule_unchanged k :
    PyDict.get k T = None ->
    PyDict.contains k reserved = false ->
    rekey_rule T reserved k k.

(** The key one turn of the loop of [extra_state_attributes] writes to. *)
Definition emitted_key (T : dict string) (reserved : dict PyVal) (k : string)
    : string :=
  match PyDict.get k T with
  | Some renamed => renamed
  | None => if PyDict.contains k reserved then "vs_" ++ k else k
  end.

(** The kinds of binary sensor: one per fryer table entry, and the three
    humidifier sensors. *)
Inductive SensorKind :=
| KindAirfryer (stype : list string)
| KindOutOfWater
| KindWaterTankLifted
| KindFilterOpenState.

Definition sensor_kind {Coordinator} (e : BinarySensor Coordinator) : SensorKind :=
  match e with
  | VeSyncairfryerSensor _ _ stype => KindAirfryer stype
  | VeSyncOutOfWaterSensor _ _ => KindOutOfWater
  | VeSyncWaterTankLiftedSensor _ _ => KindWaterTankLifted
  | VeSyncFilterOpenStateSensor _ _ => KindFilterOpenState
  end.

(** The suffix a kind appends to the base identifier. *)
Definition kind_suffix (k : SensorKind) : Result string :=
  match k with
  | KindAirfryer stype => index stype 0
  | KindOutOfWater => Ok "out_of_water"
  | KindWaterTankLifted => Ok "water_tank_lifted"
  | KindFilterOpenState => Ok "filter-open-state"
  end.

(** The adapters one device contributes to a discovery, one per capability
    it exposes. *)
Definition device_entities {Coordinator} (T : dict (list string))
    (coordinator : Coordinator) (dev : Device) : list (BinarySensor Coordinator) :=
  ((if hasattr dev "fryer_status"
    then map (VeSyncairfryerSensor dev coordinator) (PyDict.values T) else [])
   ++ (if PyDict.contains "water_lacks" (details dev)
       then [VeSyncOutOfWaterSensor dev coordinator] else [])
   ++ (if PyDict.contains "water_tank_lifted" (details dev)
       then [VeSyncWaterTankLiftedSensor dev coordinator] else [])
   ++ (if PyDict.contains "filter_open_state" (details dev)
       then [VeSyncFilterOpenStateSensor dev coordinator] else []))%list.

(** ** Sample data for concrete runs *)

(** A vendor whose commands all succeed and leave the device as it is, and
    one whose commands all fail. *)
Definition obliging_vendor : VendorLibrary := {|
  vs_set_humidity := fun d _ => (true, d);
  vs_set_humidity_mode := fun d _ => (true, d);
  vs_turn_on := fun d => (true, d);
  vs_turn_off := fun d => (true, d)
|}.

Definition failing_vendor : VendorLibrary := {|
  vs_set_humidity := fun d _ => (false, d);
  vs_set_humidity_mode := fun d _ => (false, d);
  vs_turn_on := fun d => (false, d);
  vs_turn_off := fun d => (false, d)
|}.

Definition sample_humidifier : Device := {|
  device_class := VeSyncHumid200300S;
  uuid := "uuid-1";
  attrs := [("enabled", VBool true)];
  details := [("humidity", VInt 45); ("mode", VStr "manual");
              ("water_lacks", VBool false)];
  config := [("auto_target_humidity", VInt 50)];
  mist_modes := Some ["auto"; "turbo"; "sleep"; "manual"]
|}.

Definition sample_world : World := {|
  smarthumidifier := sample_humidifier;
  cached_available_modes := None;
  vendor_calls := [];
  scheduled_updates := 0;
  warnings := []
|}.

(** The device of the specification's example: the only state key is
    [water_lacks], and it is true. *)
Definition dry_humidifier : Device := {|
  device_class := VeSyncHumid200300S;
  uuid := "uuid-2";
  attrs := [];
  details := [("water_lacks", VBool true)];
  config := [];
  mist_modes := None
|}.

Definition sample_fryer : Device := {|
  device_class := OtherDevice;
  uuid := "uuid-3";
  attrs := [("fryer_status", VStr "cooking"); ("is_heating", VBool true)];
  details := [];
  config := [];
  mist_modes := None
|}.

Definition sample_fryer_table : dict (list string) :=
  [("is_heating", ["is_heating"; "preheating"; "mdi:pot-steam-outline"])].

Definition sample_rename_table : dict string :=
  [("humidity", "current_humidity")].

(** A base identifier for concrete runs: the device's [uuid]. *)
Definition sample_base_unique_id : Device -> string := uuid.

(** ** The state properties of the humidifier adapter and its platform setup

    [target_humidity], [mode] and [is_on] branch on the exact class of the
    device; they read attributes and keys that may be missing. *)
Module HumidifierHA.

(** What reading a property gives: a value, one of the exceptions of [Exn],
    or the [AttributeError] of an attribute that is not there. *)
Inductive Outcome (A : Type) :=
| Returns (a : A)
| Raises (e : Exn)
| RaisesAttributeError (name : string).
Arguments Returns {A} a.
Arguments Raises {A} e.
Arguments RaisesAttributeError {A} name.

(** [dev.name] *)
Definition attribute (dev : Device) (name : string) : Outcome PyVal :=
  match PyDict.get name (attrs dev) with
  | Some v => Returns v
  | None => RaisesAttributeError name
  end.

(** [mapping[key]] *)
Definition item (mapping : dict PyVal) (key : string) : Outcome PyVal :=
  match PyDict.get key mapping with
  | Some v => Returns v
  | None => Raises (KeyError key)
  end.

(** [type(dev) is VeSyncSuperior6000S] *)
Definition is_superior (dev : Device) : bool :=
  match device_class dev with
  | VeSyncSuperior6000S => true
  | _ => false
  end.

(** [str(v)], as the ["%s"] of the logger formats it. *)
Definition py_str (v : PyVal) : string :=
  match v with
  | VNone => "None"
  | VBool true => "True"
  | VBool false => "False"
  | VInt z => NilZero.string_of_int (Z.to_int z)
  | VStr s => s
  end.

(** [_get_ha_mode] on whatever value the device holds: the keys of the
    table are strings, so every other value is unknown. *)
Definition get_ha_mode_of (c : ModeConsts) (v : PyVal)
    : option string * list string :=
  match v with
  | VStr s => _get_ha_mode c s
  | _ => (None, [unknown_mode_warning (py_str v)])
  end.

Definition target_humidity (w : World) : Outcome PyVal :=
  if is_superior (smarthumidifier w)
  then item (details (smarthumidifier w)) "target_humidity"
  else item (config (smarthumidifier w)) "auto_target_humidity".

Definition mode (c : ModeConsts) (w : World) : Outcome (option string) * World :=
  let vs_mode :=
    if is_superior (smarthumidifier w)
    then attribute (smarthumidifier w) "mode"
    else item (details (smarthumidifier w)) "mode" in
  match vs_mode with
  | Returns v =>
      let r := get_ha_mode_of c v in
      (Returns (fst r), with_warnings (snd r) w)
  | Raises e => (Raises e, w)
  | RaisesAttributeError n => (RaisesAttributeError n, w)
  end.

(** [v == "on"] *)
Definition equals_on (v : PyVal) : bool :=
  match v with
  | VStr s => String.eqb s "on"
  | _ => false
  end.

Definition is_on (w : World) : Outcome PyVal :=
  if is_superior (smarthumidifier w)
  then match attribute (smarthumidifier w) "device_status" with
       | Returns v => Returns (VBool (equals_on v))
       | Raises e => Raises e
       | RaisesAttributeError n => RaisesAttributeError n
       end
  else attribute (smarthumidifier w) "enabled".

(** [_setup_entities] of the humidifier platform: the list comprehension
    builds one adapter per device, in order, and the first constructor that
    raises ends it; the result is the list handed to [async_add_entities]. *)
Fixpoint _setup_entities (devices : list Device) : Result (list World) :=
  match devices with
  | [] => Ok []
  | dev :: rest =>
      match VeSyncHumidifierHA dev with
      | Raise e => Raise e
      | Ok adapter =>
          match _setup_entities rest with
          | Ok adapters => Ok (adapter :: adapters)
          | Raise e => Raise e
          end
      end
  end.
End HumidifierHA.

(** ** The state attributes of the humidifier adapter

    [extra_state_attributes] tests [k in self.state_attributes] for every
    state key that is not in the rename table.  [state_attributes] is a
    property of the host's [HumidifierEntity]: each read runs it, and it
    reads [target_humidity] and [mode] of the adapter, so it can raise and
    it can log. *)
Section StateAttributesLoop.
(** [VS_TO_HA_ATTRIBUTES] is imported from [.const]; [state_attributes] is
    the property inherited from the host, as a computation on the world. *)
Variable VS_TO_HA_ATTRIBUTES : dict string.
Variable state_attributes : World -> HumidifierHA.Outcome (dict PyVal) * World.

(** The loop of [extra_state_attributes] over the pairs still to visit;
    [attr] is the dictionary built so far.  [k in VS_TO_HA_ATTRIBUTES]
    followed by [VS_TO_HA_ATTRIBUTES[k]] is one lookup. *)
Fixpoint extra_state_attributes_loop (todo : list (string * PyVal))
    (attr : dict PyVal) (w : World)
    : HumidifierHA.Outcome (dict PyVal) * World :=
  match todo with
  | [] => (HumidifierHA.Returns attr, w)
  | (k, v) :: rest =>
      match PyDict.get k VS_TO_HA_ATTRIBUTES with
      | Some renamed =>
          extra_state_attributes_loop rest (PyDict.set renamed v attr) w
      | None =>
          match state_attributes w with
          | (HumidifierHA.Returns reserved, w1) =>
              if PyDict.contains k reserved then
                extra_state_attributes_loop rest (PyDict.set ("vs_" ++ k) v attr) w1
              else
                extra_state_attributes_loop rest (PyDict.set k v attr) w1
          | (HumidifierHA.Raises e, w1) => (HumidifierHA.Raises e, w1)
          | (HumidifierHA.RaisesAttributeError n, w1) =>
              (HumidifierHA.RaisesAttributeError n, w1)
          end
      end
  end.

Definition extra_state_attributes (w : World)
    : HumidifierHA.Outcome (dict PyVal) * World :=
  extra_state_attributes_loop
    (PyDict.items (details (smarthumidifier w))) PyDict.empty w.
End StateAttributesLoop.

(** [HumidifierEntity.state_attributes] of the host, for an adapter that
    defines neither an action nor a current humidity and supports modes, as
    [VeSyncHumidifierHA] does: the target humidity under [humidity] when it
    is not [None], then the mode under [mode]. *)
Definition HumidifierEntity_state_attributes (c : ModeConsts) (w : World)
    : HumidifierHA.Outcome (dict PyVal) * World :=
  match HumidifierHA.target_humidity w with
  | HumidifierHA.Returns target =>
      let data :=
        match target with
        | VNone => PyDict.empty
        | _ => PyDict.set "humidity" target PyDict.empty
        end in
      match HumidifierHA.mode c w with
      | (HumidifierHA.Returns m, w1) =>
          (HumidifierHA.Returns
             (PyDict.set "mode"
                (match m with Some ha => VStr ha | None => VNone end) data),
           w1)
      | (HumidifierHA.Raises e, w1) => (HumidifierHA.Raises e, w1)
      | (HumidifierHA.RaisesAttributeError n, w1) =>
          (HumidifierHA.RaisesAttributeError n, w1)
      end
  | HumidifierHA.Raises e => (HumidifierHA.Raises e, w)
  | HumidifierHA.RaisesAttributeError n => (HumidifierHA.RaisesAttributeError n, w)
  end.

(** What the development assumes of the host property: a read leaves the
    world as it was but for the warnings it logs, and its answer does not
    depend on the warnings logged before. *)
Definition observes (state_attributes : World -> HumidifierHA.Outcome (dict PyVal) * World)
    : Prop :=
  forall w,
    (exists ws, snd (state_attributes w) = with_warnings ws w)
    /\ (forall ws, fst (state_attributes (with_warnings ws w))
                   = fst (state_attributes w)).

(** The adapter [__init__] builds for the device of the example. *)
Definition dry_world : World := {|
  smarthumidifier := dry_humidifier;
  cached_available_modes := None;
  vendor_calls := [];
  scheduled_updates := 0;
  warnings := []
|}.

(** [VeSyncairfryerSensor.icon]; the other adapters inherit theirs. *)
Definition icon (stype : list string) : Result string := index stype 2.

(** The last character of a string, to compare suffixes. *)
Fixpoint last_char (s : string) : option Ascii.ascii :=
  match s with
  | EmptyString => None
  | String a EmptyString => Some a
  | String _ r => last_char r
  end.

(** A device of a class the humidifier adapter accepts. *)
Definition compatible (dev : Device) : bool :=
  match device_class dev with
  | OtherDevice => false
  | _ => true
  end.

(** The same device with another mode list. *)
Definition with_mist_modes (m : option (list string)) (d : Device) : Device :=
  {| device_class := device_class d;
     uuid := uuid d;
     attrs := attrs d;
     details := details d;
     config := config d;
     mist_modes := m |}.

Definition sample_superior : Device := {|
  device_class := VeSyncSuperior6000S;
  uuid := "uuid-4";
  attrs := [("mode", VStr "humidity"); ("device_status", VStr "on")];
  details := [("target_humidity", VInt 55); ("mode", VStr "sleep")];
  config := [];
  mist_modes := Some ["auto"; "sleep"; "manual"]
|}.

Definition superior_world : World := {|
  smarthumidifier := sample_superior;
  cached_available_modes := None;
  vendor_calls := [];
  scheduled_updates := 0;
  warnings := []
|}.

(** ** Sequences of commands

    The host calls the commands of an adapter one service call at a time;
    an exception ends the service call, not the adapter. *)
Inductive Command :=
| CmdSetHumidity (humidity : Z)
| CmdSetMode (mode : string)
| CmdTurnOn
| CmdTurnOff.

Definition run_command (c : ModeConsts) `{VendorLibrary} (cmd : Command) : M unit :=
  match cmd with
  | CmdSetHumidity humidity => set_humidity humidity
  | CmdSetMode mode => set_mode c mode
  | CmdTurnOn => turn_on
  | CmdTurnOff => turn_off
  end.

(** The world after a sequence of service calls. *)
Definition run_commands (c : ModeConsts) `{VendorLibrary} (cmds : list Command)
    (w : World) : World :=
  fold_left (fun w cmd => snd (run_command c cmd w)) cmds w.

(** A vendor call the validation of the adapter lets through. *)
Definition validated_call (call : VendorCall) : Prop :=
  match call with
  | CallSetHumidity humidity => (30 <= humidity <= 80)%Z
  | CallSetHumidityMode mode => mode <> None
  | CallTurnOn | CallTurnOff => True
  end.

(** What holds of an adapter between two service calls. *)
Definition adapter_invariant (c : ModeConsts) (w : World) : Prop :=
  cache_sound c w
  /\ Forall validated_call (vendor_calls w)
  /\ scheduled_updates w <= length (vendor_calls w).

(** * Properties *)

(** ** Dictionary facts *)
Section DictFacts.
Context {V : Type}.
Implicit Types (d : dict V) (k : string) (v : V).

Lemma get_set_eq d k v : PyDict.get k (PyDict.set k v d) = Some v.
Proof.
  induction d as [|[k' v'] r IH]; simpl.
  - now rewrite String.eqb_refl.
  - destruct (String.eqb k k') eqn:E; simpl; rewrite E; auto.
Qed.

Lemma get_set_ne d k k' v :
  k <> k' -> PyDict.get k (PyDict.set k' v d) = PyDict.get k d.
Proof.
  intros Hne. induction d as [|[k0 v0] r IH]; simpl.
  - destruct (String.eqb_spec k k'); congruence.
  - destruct (String.eqb_spec k' k0) as [->|Hk]; simpl.
    + destruct (String.eqb_spec k k0); congruence.
    + now rewrite IH.
Qed.

Lemma get_In d k v : PyDict.get k d = Some v -> In (k, v) d.
Proof.
  induction d as [|[k' v'] r IH]; simpl; [discriminate|].
  destruct (String.eqb_spec k k') as [->|Hne]; intros H.
  - injection H as ->. now left.
  - right. auto.
Qed.

Lemma get_None_keys d k : PyDict.get k d = None <-> ~ In k (PyDict.keys d).
Proof.
  induction d as [|[k' v'] r IH]; simpl.
  - tauto.
  - destruct (String.eqb_spec k k') as [->|Hne].
    + split; [discriminate | intros H; exfalso; apply H; now left].
    + rewrite IH. split; [intros H [E|I]; [congruence|tauto] | tauto].
Qed.

Lemma get_Some_keys d k : In k (PyDict.keys d) -> exists v, PyDict.get k d = Some v.
Proof.
  intros H. destruct (PyDict.get k d) as [v|] eqn:E; [now exists v|].
  apply get_None_keys in E. contradiction.
Qed.

Lemma contains_keys d k : PyDict.contains k d = true <-> In k (PyDict.keys d).
Proof.
  unfold PyDict.contains. destruct (PyDict.get k d) as [v|] eqn:E.
  - split; [intros _ | reflexivity].
    apply get_In in E. unfold PyDict.keys. now apply (in_map fst) in E.
  - apply get_None_keys in E. split; [discriminate | contradiction].
Qed.

Lemma keys_set d k v k0 :
  In k0 (PyDict.keys (PyDict.set k v d)) <-> k0 = k \/ In k0 (PyDict.keys d).
Proof.
  induction d as [|[k' v'] r IH]; simpl.
  - intuition.
  - destruct (String.eqb_spec k k') as [->|Hne]; simpl.
    + intuition.
    + rewrite IH. intuition.
Qed.
End DictFacts.

Lemma fold_left_over_map {A B C} (f : A -> B -> A) (g : C -> B) (l : list C) (a : A) :
  fold_left f (map g l) a = fold_left (fun a x => f a (g x)) l a.
Proof. revert a. induction l as [|x l IH]; simpl; intros a; auto. Qed.

(** A written key stays in the dictionary through every later write. *)
Lemma fold_set_keeps {A V} (f : A -> string * V) (xs : list A) (acc : dict V) k :
  In k (PyDict.keys acc) ->
  In k (PyDict.keys (fold_left (fun d x => PyDict.set (fst (f x)) (snd (f x)) d) xs acc)).
Proof.
  revert acc. induction xs as [|x xs IH]; simpl; intros acc H; [exact H|].
  apply IH. apply keys_set. now right.
Qed.

Lemma fold_set_writes {A V} (f : A -> string * V) (xs : list A) (acc : dict V) x :
  In x xs ->
  In (fst (f x))
     (PyDict.keys (fold_left (fun d x => PyDict.set (fst (f x)) (snd (f x)) d) xs acc)).
Proof.
  revert acc. induction xs as [|y xs IH]; simpl; intros acc H; [contradiction|].
  destruct H as [->|H].
  - apply fold_set_keeps. apply keys_set. now left.
  - now apply IH.
Qed.

(** ** The mode tables *)
Section ModeFacts.
Variable c : ModeConsts.

(** Every host mode the vendor-to-host table holds is a key of the
    reversed table, whatever the seven names are. *)
Lemma ha_values_are_keys ha :
  In ha (PyDict.values (VS_TO_HA_MODE_MAP c)) ->
  In ha (PyDict.keys (HA_TO_VS_MODE_MAP c)).
Proof.
  unfold PyDict.values. rewrite in_map_iff. intros [[vs ha'] [E H]].
  simpl in E. subst ha'.
  unfold HA_TO_VS_MODE_MAP, PyDict.of_items, PyDict.items.
  rewrite fold_left_over_map.
  apply (fold_set_writes (fun kv : string * string => (snd kv, fst kv))
           (VS_TO_HA_MODE_MAP c) PyDict.empty (vs, ha)).
  exact H.
Qed.

Hypothesis distinct : consts_distinct c.

Lemma VS_TO_HA_MODE_MAP_distinct :
  VS_TO_HA_MODE_MAP c
  = [ (VS_MODE_AUTO c, MODE_AUTO c); (VS_MODE_HUMIDITY c, MODE_AUTO c);
      (VS_MODE_MANUAL c, MODE_NORMAL c); (VS_MODE_SLEEP c, MODE_SLEEP c) ].
Proof.
  destruct distinct as [Hvs _].
  inversion Hvs as [|a l Ha Hl]; subst. inversion Hl as [|b l' Hb Hl']; subst.
  inversion Hl' as [|e l2 He _]; subst. simpl in Ha, Hb, He.
  unfold VS_TO_HA_MODE_MAP, PyDict.of_items. simpl.
  repeat (match goal with
          | |- context [String.eqb ?x ?y] =>
              destruct (String.eqb_spec x y); [exfalso; intuition congruence|]
          end; simpl).
  reflexivity.
Qed.

Lemma HA_TO_VS_MODE_MAP_distinct :
  HA_TO_VS_MODE_MAP c
  = [ (MODE_AUTO c, VS_MODE_HUMIDITY c); (MODE_NORMAL c, VS_MODE_MANUAL c);
      (MODE_SLEEP c, VS_MODE_SLEEP c) ].
Proof.
  unfold HA_TO_VS_MODE_MAP. rewrite VS_TO_HA_MODE_MAP_distinct.
  destruct distinct as [_ Hha].
  inversion Hha as [|a l Ha Hl]; subst. inversion Hl as [|b l' Hb _]; subst.
  simpl in Ha, Hb.
  unfold PyDict.of_items, PyDict.items. simpl.
  rewrite String.eqb_refl. simpl.
  repeat (match goal with
          | |- context [String.eqb ?x ?y] =>
              destruct (String.eqb_spec x y); [exfalso; intuition congruence|]
          end; simpl).
  reflexivity.
Qed.
End ModeFacts.

Example tables_concrete :
  VS_TO_HA_MODE_MAP vesync_consts
  = [("auto", "auto"); ("humidity", "auto"); ("manual", "normal"); ("sleep", "sleep")]
  /\ HA_TO_VS_MODE_MAP vesync_consts
     = [("auto", "humidity"); ("normal", "manual"); ("sleep", "sleep")].
Proof. split; reflexivity. Qed.

Lemma vesync_consts_distinct : consts_distinct vesync_consts.
Proof.
  split; repeat constructor; simpl; intuition discriminate.
Defined.

(** C1, as stated, fails: with pyvesync's names the vendor mode "auto" is a
    key of the vendor-to-host table, it translates to the host mode "auto",
    and the reversed table sends that back to "humidity", the later of the
    two vendor modes that share the host mode. *)
Lemma round_trip_auto_counterexample :
  ~ (forall vs : string,
        In vs (PyDict.keys (VS_TO_HA_MODE_MAP vesync_consts)) ->
        vs_round_trip vesync_consts vs = Some vs).
Proof.
  intros H. specialize (H "auto" (or_introl eq_refl)).
  vm_compute in H. discriminate H.
Qed.

(** C1, amended: when the mode names are distinct, the round trip vendor to
    host to vendor returns the original string for every key of the
    vendor-to-host table other than [VS_MODE_AUTO]; for [VS_MODE_AUTO] it
    returns [VS_MODE_HUMIDITY], the other vendor mode with the same host
    mode. *)
Theorem round_trip_known_modes (c : ModeConsts) (vs : string) :
  consts_distinct c ->
  In vs (PyDict.keys (VS_TO_HA_MODE_MAP c)) ->
  (vs <> VS_MODE_AUTO c -> vs_round_trip c vs = Some vs)
  /\ (vs = VS_MODE_AUTO c -> vs_round_trip c vs = Some (VS_MODE_HUMIDITY c)).
Proof.
  intros Hd Hin.
  unfold vs_round_trip, _get_ha_mode, _get_vs_mode.
  rewrite (HA_TO_VS_MODE_MAP_distinct c Hd).
  rewrite (VS_TO_HA_MODE_MAP_distinct c Hd) in *.
  destruct Hd as [Hvs Hha].
  inversion Hvs as [|a l Ha Hl]; subst. inversion Hl as [|b l' Hb Hl']; subst.
  inversion Hl' as [|e l2 He _]; subst.
  inversion Hha as [|a' m Ha' Hm]; subst. inversion Hm as [|b' m' Hb' _]; subst.
  simpl in Ha, Hb, He, Ha', Hb'.
  simpl in Hin.
  destruct Hin as [<-|[<-|[<-|[<-|[]]]]]; split; intros Hq;
    try (exfalso; intuition congruence);
    simpl;
    repeat (match goal with
            | |- context [String.eqb ?x ?x] => rewrite (String.eqb_refl x)
            | |- context [String.eqb ?x ?y] =>
                destruct (String.eqb_spec x y); [exfalso; intuition congruence|]
            end; simpl);
    reflexivity.
Qed.

Lemma round_trip_known_modes_witness :
  consts_distinct vesync_consts
  /\ In "manual" (PyDict.keys (VS_TO_HA_MODE_MAP vesync_consts))
  /\ ("manual" <> VS_MODE_AUTO vesync_consts ->
      vs_round_trip vesync_consts "manual" = Some "manual")
  /\ ("manual" = VS_MODE_AUTO vesync_consts ->
      vs_round_trip vesync_consts "manual"
      = Some (VS_MODE_HUMIDITY vesync_consts)).
Proof.
  split; [exact vesync_consts_distinct|].
  split; [simpl; tauto|].
  apply (round_trip_known_modes vesync_consts "manual").
  - exact vesync_consts_distinct.
  - simpl; tauto.
Defined.

(** C5: a string that is not a key of the table a translation function
    reads is answered with [None] and one logged warning; the functions
    return a value on every string, they have no raising path. *)
Theorem unknown_mode_is_absent (c : ModeConsts) (s : string) :
  (~ In s (PyDict.keys (VS_TO_HA_MODE_MAP c)) ->
   _get_ha_mode c s = (None, [unknown_mode_warning s]))
  /\ (~ In s (PyDict.keys (HA_TO_VS_MODE_MAP c)) ->
      _get_vs_mode c s = (None, [unknown_mode_warning s])).
Proof.
  split; intros H; apply get_None_keys in H.
  - unfold _get_ha_mode. now rewrite H.
  - unfold _get_vs_mode. now rewrite H.
Qed.

Lemma unknown_mode_is_absent_witness :
  ~ In "turbo" (PyDict.keys (VS_TO_HA_MODE_MAP vesync_consts))
  /\ ~ In "turbo" (PyDict.keys (HA_TO_VS_MODE_MAP vesync_consts))
  /\ _get_ha_mode vesync_consts "turbo" = (None, ["Unknown mode 'turbo'"])
  /\ _get_vs_mode vesync_consts "turbo" = (None, ["Unknown mode 'turbo'"]).
Proof.
  assert (H1 : ~ In "turbo" (PyDict.keys (VS_TO_HA_MODE_MAP vesync_consts)))
    by (simpl; intuition discriminate).
  assert (H2 : ~ In "turbo" (PyDict.keys (HA_TO_VS_MODE_MAP vesync_consts)))
    by (simpl; intuition discriminate).
  split; [exact H1|]. split; [exact H2|]. split.
  - exact (proj1 (unknown_mode_is_absent vesync_consts "turbo") H1).
  - exact (proj2 (unknown_mode_is_absent vesync_consts "turbo") H2).
Defined.

(** ** The humidifier adapter *)

Lemma with_warnings_nil w : with_warnings [] w = w.
Proof. destruct w; unfold with_warnings; simpl. now rewrite app_nil_r. Qed.

Lemma with_warnings_app a b w :
  with_warnings b (with_warnings a w) = with_warnings (a ++ b) w.
Proof. destruct w; unfold with_warnings; simpl. now rewrite app_assoc. Qed.

Section AvailableModes.
Variable c : ModeConsts.

(** The loop is the specification's translation, appended to what was
    built before, and it logs one warning per dropped entry. *)
Lemma available_modes_loop_spec todo modes w :
  available_modes_loop c todo modes w
  = (Ok (modes ++ translate_known c todo)%list,
     with_warnings (dropped_warnings c todo) w).
Proof.
  revert modes w. induction todo as [|vs rest IH]; intros modes w.
  - simpl. now rewrite app_nil_r, with_warnings_nil.
  - simpl. unfold bind, logged, _get_ha_mode, dropped_warnings, PyDict.contains.
    simpl. destruct (PyDict.get vs (VS_TO_HA_MODE_MAP c)) as [ha|] eqn:E; simpl.
    + rewrite IH, with_warnings_app, <- app_assoc. reflexivity.
    + rewrite IH, with_warnings_app. reflexivity.
Qed.

Lemma translate_known_values vs_modes m :
  In m (translate_known c vs_modes) ->
  In m (PyDict.values (VS_TO_HA_MODE_MAP c)).
Proof.
  unfold translate_known. rewrite in_flat_map. intros [vs [_ H]].
  destruct (PyDict.get vs (VS_TO_HA_MODE_MAP c)) as [ha|] eqn:E; [|contradiction].
  destruct H as [<-|[]]. apply get_In in E.
  unfold PyDict.values. now apply (in_map snd) in E.
Qed.

Lemma available_modes_body_spec w :
  available_modes_body c w
  = match mist_modes (smarthumidifier w) with
    | None => (Ok [], w)
    | Some vs_modes =>
        (Ok (translate_known c vs_modes),
         with_warnings (dropped_warnings c vs_modes) w)
    end.
Proof.
  unfold available_modes_body, bind, get_world.
  destruct (mist_modes (smarthumidifier w)); [|reflexivity].
  now rewrite available_modes_loop_spec.
Qed.

(** Reading the property never raises, and touches nothing but the cache
    slot and the log. *)
Lemma available_modes_frame w :
  exists modes w',
    available_modes c w = (Ok modes, w')
    /\ smarthumidifier w' = smarthumidifier w
    /\ vendor_calls w' = vendor_calls w
    /\ scheduled_updates w' = scheduled_updates w
    /\ cached_available_modes w' = Some modes
    /\ (cache_sound c w -> cache_sound c w').
Proof.
  unfold available_modes, bind, get_world.
  destruct (cached_available_modes w) as [modes|] eqn:E.
  - exists modes, w. unfold ret. repeat split; auto.
  - rewrite available_modes_body_spec.
    destruct (mist_modes (smarthumidifier w)) as [vs_modes|].
    + eexists _, _. split; [reflexivity|]. repeat split.
      intros _. unfold cache_sound. simpl. apply translate_known_values.
    + eexists _, _. split; [reflexivity|]. repeat split.
      intros _. unfold cache_sound. simpl. intros m [].
Qed.
End AvailableModes.

(** C7: on a device with a non-null [mist_modes], [available_modes] is the
    list of the vendor modes translated through the vendor-to-host table, in
    order, without the unknown entries; this holds on the first read (empty
    cache), which also logs one warning per dropped entry, and on every read
    whose cache is that of the device as it is. *)
Theorem available_modes_translates (c : ModeConsts) (w : World)
    (vs_modes : list string) :
  mist_modes (smarthumidifier w) = Some vs_modes ->
  cache_current c w ->
  fst (available_modes c w) = Ok (translate_known c vs_modes)
  /\ (cached_available_modes w = None ->
      snd (available_modes c w)
      = with_cache (translate_known c vs_modes)
          (with_warnings (dropped_warnings c vs_modes) w)).
Proof.
  intros Hm Hc. unfold available_modes, bind, get_world.
  unfold cache_current in Hc. rewrite Hm in Hc.
  destruct (cached_available_modes w) as [modes|] eqn:E.
  - subst modes. split; [reflexivity | discriminate].
  - rewrite available_modes_body_spec, Hm. simpl. split; reflexivity.
Qed.

Lemma available_modes_translates_witness :
  mist_modes (smarthumidifier sample_world) = Some ["auto"; "turbo"; "sleep"; "manual"]
  /\ cache_current vesync_consts sample_world
  /\ fst (available_modes vesync_consts sample_world)
     = Ok ["auto"; "sleep"; "normal"]
  /\ warnings (snd (available_modes vesync_consts sample_world))
     = ["Unknown mode 'turbo'"].
Proof.
  split; [reflexivity|]. split; [exact I|].
  destruct (available_modes_translates vesync_consts sample_world
              ["auto"; "turbo"; "sleep"; "manual"] eq_refl I) as [H1 H2].
  split; [exact H1|]. rewrite (H2 eq_refl). reflexivity.
Defined.

(** C3: [set_humidity] on an integer outside [min_humidity, max_humidity]
    raises the validation error and leaves the whole world as it was: no
    vendor call is recorded and the device is untouched. *)
Theorem set_humidity_out_of_range `{VendorLibrary} (humidity : Z) (w : World) :
  (humidity < min_humidity \/ max_humidity < humidity)%Z ->
  set_humidity humidity w
  = (Raise (ValueError
       "{humidity} is not between {self.min_humidity} and {self.max_humidity} (inclusive)"),
     w).
Proof.
  intros Hout. unfold set_humidity, in_range.
  assert (E : ((min_humidity <=? humidity)%Z && (humidity <? max_humidity + 1)%Z)
              = false).
  { apply andb_false_iff. destruct Hout; [left; apply Z.leb_gt | right; apply Z.ltb_ge]; lia. }
  rewrite E. reflexivity.
Qed.

Lemma set_humidity_out_of_range_witness :
  (81 < min_humidity \/ max_humidity < 81)%Z
  /\ vendor_calls (snd (@set_humidity obliging_vendor 81 sample_world)) = []
  /\ fst (@set_humidity obliging_vendor 81 sample_world)
     = Raise (ValueError
         "{humidity} is not between {self.min_humidity} and {self.max_humidity} (inclusive)").
Proof.
  assert (Hout : (81 < min_humidity \/ max_humidity < 81)%Z)
    by (right; unfold max_humidity, _attr_max_humidity, MAX_HUMIDITY; lia).
  split; [exact Hout|].
  rewrite (@set_humidity_out_of_range obliging_vendor 81 sample_world Hout).
  split; reflexivity.
Defined.

Lemma str_in_In m modes : str_in m modes = true <-> In m modes.
Proof.
  unfold str_in. rewrite existsb_exists. split.
  - intros [x [Hx E]]. apply String.eqb_eq in E. now subst.
  - intros H. exists m. split; [exact H | apply String.eqb_refl].
Qed.

Lemma str_in_not_In m modes : str_in m modes = false <-> ~ In m modes.
Proof.
  rewrite <- str_in_In. destruct (str_in m modes); split; congruence.
Qed.

(** C4: [set_mode] on a string that is not in [available_modes] raises the
    validation error; the world it leaves is the one left by reading
    [available_modes], in which no vendor call is recorded, the device is
    untouched and no refresh is scheduled. *)
Theorem set_mode_unavailable (c : ModeConsts) `{VendorLibrary} (mode : string)
    (w w1 : World) (modes : list string) :
  available_modes c w = (Ok modes, w1) ->
  ~ In mode modes ->
  set_mode c mode w
  = (Raise (ValueError
       "{mode} is not one of the valid available modes: {self.available_modes}"),
     w1)
  /\ vendor_calls w1 = vendor_calls w
  /\ smarthumidifier w1 = smarthumidifier w
  /\ scheduled_updates w1 = scheduled_updates w.
Proof.
  intros Ha Hnot. split.
  - unfold set_mode, bind. rewrite Ha.
    apply str_in_not_In in Hnot. rewrite Hnot. reflexivity.
  - destruct (available_modes_frame c w) as (modes' & w' & E & Hd & Hc & Hs & _).
    rewrite Ha in E. injection E as -> ->. auto.
Qed.

Lemma set_mode_unavailable_witness :
  available_modes vesync_consts sample_world
  = (Ok ["auto"; "sleep"; "normal"],
     with_cache ["auto"; "sleep"; "normal"]
       (with_warnings ["Unknown mode 'turbo'"] sample_world))
  /\ ~ In "manual" ["auto"; "sleep"; "normal"]
  /\ fst (@set_mode vesync_consts obliging_vendor "manual" sample_world)
     = Raise (ValueError
         "{mode} is not one of the valid available modes: {self.available_modes}")
  /\ vendor_calls (snd (@set_mode vesync_consts obliging_vendor "manual" sample_world))
     = [].
Proof.
  assert (Ha : available_modes vesync_consts sample_world
               = (Ok ["auto"; "sleep"; "normal"],
                  with_cache ["auto"; "sleep"; "normal"]
                    (with_warnings ["Unknown mode 'turbo'"] sample_world)))
    by reflexivity.
  assert (Hn : ~ In "manual" ["auto"; "sleep"; "normal"])
    by (simpl; intuition discriminate).
  split; [exact Ha|]. split; [exact Hn|].
  destruct (@set_mode_unavailable vesync_consts obliging_vendor "manual"
              sample_world _ _ Ha Hn) as [E _].
  rewrite E. split; reflexivity.
Defined.

(** C10: in a world whose cache is sound, every host mode in
    [available_modes] is translated by [_get_vs_mode] to a vendor mode,
    without a warning; and [set_mode] either makes no vendor call or makes
    exactly one, [set_humidity_mode] with a vendor mode that is not null. *)
Theorem set_mode_passes_known_mode (c : ModeConsts) `{VendorLibrary}
    (mode : string) (w : World) :
  cache_sound c w ->
  (forall modes w1,
      available_modes c w = (Ok modes, w1) -> In mode modes ->
      exists vs, _get_vs_mode c mode = (Some vs, []))
  /\ (vendor_calls (snd (set_mode c mode w)) = vendor_calls w
      \/ exists vs,
           vendor_calls (snd (set_mode c mode w))
           = (vendor_calls w ++ [CallSetHumidityMode (Some vs)])%list).
Proof.
  intros Hs.
  destruct (available_modes_frame c w) as (modes & w1 & Ea & Hd & Hc & Hu & Hk & Hs1).
  specialize (Hs1 Hs). unfold cache_sound in Hs1. rewrite Hk in Hs1.
  assert (Hvs : In mode modes -> exists vs, _get_vs_mode c mode = (Some vs, [])).
  { intros Hin. apply Hs1, ha_values_are_keys, get_Some_keys in Hin.
    destruct Hin as [vs E]. exists vs. unfold _get_vs_mode. now rewrite E. }
  split.
  - intros modes' w1' E Hin. rewrite Ea in E. injection E as <- <-. auto.
  - unfold set_mode, bind. rewrite Ea.
    destruct (str_in mode modes) eqn:Ein; simpl.
    + apply str_in_In in Ein. destruct (Hvs Ein) as [vs E]. rewrite E.
      right. exists vs. unfold logged, smarthumidifier_set_humidity_mode. simpl.
      destruct (vs_set_humidity_mode _ (Some vs)) as [[|] d]; simpl;
        now rewrite Hc.
    + left. exact Hc.
Qed.

Lemma set_mode_passes_known_mode_witness :
  cache_sound vesync_consts sample_world
  /\ (exists vs, _get_vs_mode vesync_consts "auto" = (Some vs, []))
  /\ (vendor_calls (snd (@set_mode vesync_consts obliging_vendor "auto" sample_world))
      = vendor_calls sample_world
      \/ exists vs,
           vendor_calls (snd (@set_mode vesync_consts obliging_vendor "auto" sample_world))
           = (vendor_calls sample_world ++ [CallSetHumidityMode (Some vs)])%list).
Proof.
  split; [exact I|].
  destruct (@set_mode_passes_known_mode vesync_consts obliging_vendor "auto"
              sample_world I) as [H1 H2].
  split; [|exact H2].
  apply (H1 ["auto"; "sleep"; "normal"]
            (with_cache ["auto"; "sleep"; "normal"]
               (with_warnings ["Unknown mode 'turbo'"] sample_world))).
  - reflexivity.
  - simpl. tauto.
Defined.

Example set_mode_auto_sends_humidity :
  _get_vs_mode vesync_consts "auto" = (Some "humidity", [])
  /\ vendor_calls (snd (@set_mode vesync_consts obliging_vendor "auto" sample_world))
     = [CallSetHumidityMode (Some "humidity")].
Proof. split; reflexivity. Qed.

(** *** Commands and the vendor's answer *)
Section Commands.
Variable c : ModeConsts.
Context {vendor : VendorLibrary}.

(** A valid [set_humidity] makes the vendor call; on success one refresh is
    scheduled, on failure the operation error is raised. *)
Lemma set_humidity_valid humidity w :
  (min_humidity <= humidity <= max_humidity)%Z ->
  let (ok, d) := vs_set_humidity (smarthumidifier w) humidity in
  let w1 := with_device d (with_call (CallSetHumidity humidity) w) in
  set_humidity humidity w
  = if ok then (Ok tt, with_update w1)
    else (Raise (ValueError "An error occurred while setting humidity."), w1).
Proof.
  intros Hin. unfold set_humidity, in_range.
  assert (E : ((min_humidity <=? humidity)%Z && (humidity <? max_humidity + 1)%Z)
              = true).
  { apply andb_true_iff. split; [apply Z.leb_le | apply Z.ltb_lt]; lia. }
  rewrite E. simpl. unfold bind, smarthumidifier_set_humidity.
  destruct (vs_set_humidity (smarthumidifier w) humidity) as [[|] d]; reflexivity.
Qed.

(** A valid [set_mode] makes the vendor call with the translated mode; on
    success one refresh is scheduled, on failure the operation error is
    raised. *)
Lemma set_mode_valid mode w modes w1 :
  available_modes c w = (Ok modes, w1) ->
  In mode modes ->
  let w2 := with_warnings (snd (_get_vs_mode c mode)) w1 in
  let vs_mode := fst (_get_vs_mode c mode) in
  let (ok, d) := vs_set_humidity_mode (smarthumidifier w2) vs_mode in
  let w3 := with_device d (with_call (CallSetHumidityMode vs_mode) w2) in
  set_mode c mode w
  = if ok then (Ok tt, with_update w3)
    else (Raise (ValueError "An error occurred while setting mode."), w3).
Proof.
  intros Ha Hin. simpl. unfold set_mode, bind. rewrite Ha.
  apply str_in_In in Hin. rewrite Hin. simpl.
  unfold logged, smarthumidifier_set_humidity_mode.
  destruct (vs_set_humidity_mode _ _) as [[|] d]; reflexivity.
Qed.

(** [turn_on] and [turn_off] make the vendor call; on failure the operation
    error is raised, on success they return and the world is the one the
    call left: no refresh is scheduled. *)
Lemma turn_on_answer w :
  let (ok, d) := vs_turn_on (smarthumidifier w) in
  let w1 := with_device d (with_call CallTurnOn w) in
  turn_on w
  = if ok then (Ok tt, w1)
    else (Raise (ValueError "An error occurred while turning on."), w1).
Proof.
  unfold turn_on, bind, smarthumidifier_turn_on.
  destruct (vs_turn_on (smarthumidifier w)) as [[|] d]; reflexivity.
Qed.

Lemma turn_off_answer w :
  let (ok, d) := vs_turn_off (smarthumidifier w) in
  let w1 := with_device d (with_call CallTurnOff w) in
  turn_off w
  = if ok then (Ok tt, w1)
    else (Raise (ValueError "An error occurred while turning off."), w1).
Proof.
  unfold turn_off, bind, smarthumidifier_turn_off.
  destruct (vs_turn_off (smarthumidifier w)) as [[|] d]; reflexivity.
Qed.

(** The soundness of the cache is an invariant of the adapter: it holds
    after [__init__] and every command keeps it. *)
Lemma init_cache_sound humidifier w :
  VeSyncHumidifierHA humidifier = Ok w -> cache_sound c w.
Proof.
  unfold VeSyncHumidifierHA.
  destruct (device_class humidifier); intros E; try discriminate;
    injection E as <-; exact I.
Qed.

Lemma set_humidity_cache_sound humidity w :
  cache_sound c w -> cache_sound c (snd (set_humidity humidity w)).
Proof.
  intros Hs. unfold set_humidity.
  destruct (negb _); [exact Hs|].
  unfold bind, smarthumidifier_set_humidity.
  destruct (vs_set_humidity _ _) as [[|] d]; exact Hs.
Qed.

Lemma set_mode_cache_sound mode w :
  cache_sound c w -> cache_sound c (snd (set_mode c mode w)).
Proof.
  intros Hs.
  destruct (available_modes_frame c w) as (modes & w1 & Ea & _ & _ & _ & _ & Hs1).
  specialize (Hs1 Hs). unfold set_mode, bind. rewrite Ea.
  destruct (negb _); [exact Hs1|].
  unfold logged, smarthumidifier_set_humidity_mode. simpl.
  destruct (vs_set_humidity_mode _ _) as [[|] d]; exact Hs1.
Qed.

Lemma turn_on_cache_sound w :
  cache_sound c w -> cache_sound c (snd (turn_on w)).
Proof.
  intros Hs. unfold turn_on, bind, smarthumidifier_turn_on.
  destruct (vs_turn_on _) as [[|] d]; exact Hs.
Qed.

Lemma turn_off_cache_sound w :
  cache_sound c w -> cache_sound c (snd (turn_off w)).
Proof.
  intros Hs. unfold turn_off, bind, smarthumidifier_turn_off.
  destruct (vs_turn_off _) as [[|] d]; exact Hs.
Qed.
End Commands.

(** C2, where the code departs from it: [turn_on] and [turn_off] never
    schedule a state refresh, whatever the vendor answers; with a vendor
    that reports success they return normally and the count of scheduled
    refreshes is still 0, while [set_humidity] and [set_mode] on the same
    world schedule one. *)
Theorem turn_on_off_schedule_no_refresh :
  (forall (vendor : VendorLibrary) (w : World),
      scheduled_updates (snd (turn_on w)) = scheduled_updates w
      /\ scheduled_updates (snd (turn_off w)) = scheduled_updates w)
  /\ @turn_on obliging_vendor sample_world
     = (Ok tt, with_call CallTurnOn sample_world)
  /\ @turn_off obliging_vendor sample_world
     = (Ok tt, with_call CallTurnOff sample_world)
  /\ scheduled_updates (snd (@turn_on obliging_vendor sample_world)) = 0
  /\ scheduled_updates (snd (@set_humidity obliging_vendor 50 sample_world)) = 1
  /\ scheduled_updates
       (snd (@set_mode vesync_consts obliging_vendor "sleep" sample_world)) = 1.
Proof.
  split; [|repeat split; reflexivity].
  intros vendor w. split.
  - unfold turn_on, bind, smarthumidifier_turn_on.
    destruct (vs_turn_on (smarthumidifier w)) as [[|] d]; reflexivity.
  - unfold turn_off, bind, smarthumidifier_turn_off.
    destruct (vs_turn_off (smarthumidifier w)) as [[|] d]; reflexivity.
Qed.

Example commands_on_vendor_failure :
  fst (@set_humidity failing_vendor 50 sample_world)
  = Raise (ValueError "An error occurred while setting humidity.")
  /\ fst (@set_mode vesync_consts failing_vendor "sleep" sample_world)
     = Raise (ValueError "An error occurred while setting mode.")
  /\ fst (@turn_on failing_vendor sample_world)
     = Raise (ValueError "An error occurred while turning on.")
  /\ fst (@turn_off failing_vendor sample_world)
     = Raise (ValueError "An error occurred while turning off.").
Proof. repeat split; reflexivity. Qed.

(** *** State attributes *)

Lemma fold_set_untouched {A V} (f : A -> string * V) (xs : list A) (acc : dict V) k :
  (forall x, In x xs -> fst (f x) <> k) ->
  PyDict.get k (fold_left (fun d x => PyDict.set (fst (f x)) (snd (f x)) d) xs acc)
  = PyDict.get k acc.
Proof.
  revert acc. induction xs as [|x xs IH]; simpl; intros acc H; [reflexivity|].
  rewrite IH by auto. apply get_set_ne. intros E. now apply (H x (or_introl eq_refl)).
Qed.

Lemma fold_set_origin {A V} (f : A -> string * V) (xs : list A) (acc : dict V) k v :
  PyDict.get k (fold_left (fun d x => PyDict.set (fst (f x)) (snd (f x)) d) xs acc)
  = Some v ->
  (exists x, In x xs /\ f x = (k, v)) \/ PyDict.get k acc = Some v.
Proof.
  revert acc. induction xs as [|x xs IH]; simpl; intros acc H; [now right|].
  destruct (IH _ H) as [[y [Hy E]]|H'].
  - left. exists y. auto.
  - destruct (String.eqb_spec k (fst (f x))) as [->|Hne].
    + rewrite get_set_eq in H'. injection H' as <-.
      left. exists x. split; [now left | now destruct (f x)].
    + rewrite get_set_ne in H' by exact Hne. now right.
Qed.

Lemma fold_set_last {A V} (f : A -> string * V) (pre post : list A) x (acc : dict V) :
  (forall y, In y post -> fst (f y) <> fst (f x)) ->
  PyDict.get (fst (f x))
    (fold_left (fun d x => PyDict.set (fst (f x)) (snd (f x)) d)
       (pre ++ x :: post) acc)
  = Some (snd (f x)).
Proof.
  intros H. rewrite fold_left_app. simpl.
  rewrite fold_set_untouched by exact H. apply get_set_eq.
Qed.

Lemma mode_observes (c : ModeConsts) (w : World) :
  (exists ws, snd (HumidifierHA.mode c w) = with_warnings ws w)
  /\ (forall ws, fst (HumidifierHA.mode c (with_warnings ws w))
                 = fst (HumidifierHA.mode c w)).
Proof.
  unfold HumidifierHA.mode. simpl.
  destruct (if HumidifierHA.is_superior (smarthumidifier w)
            then HumidifierHA.attribute (smarthumidifier w) "mode"
            else HumidifierHA.item (details (smarthumidifier w)) "mode")
    as [v|e|n]; simpl; split; try reflexivity.
  - eexists; reflexivity.
  - exists []. symmetry. apply with_warnings_nil.
  - exists []. symmetry. apply with_warnings_nil.
Qed.

(** The host property, as modelled, only reads the device and logs. *)
Lemma HumidifierEntity_state_attributes_observes (c : ModeConsts) :
  observes (HumidifierEntity_state_attributes c).
Proof.
  intros w. unfold HumidifierEntity_state_attributes.
  destruct (mode_observes c w) as [[ws1 Hs] Hf].
  assert (Ht : forall ws, HumidifierHA.target_humidity (with_warnings ws w)
                          = HumidifierHA.target_humidity w) by reflexivity.
  split.
  - destruct (HumidifierHA.target_humidity w) as [target|e|n].
    + destruct (HumidifierHA.mode c w) as [[m|e|n] w1]; simpl in *;
        exists ws1; exact Hs.
    + exists []. symmetry. apply with_warnings_nil.
    + exists []. symmetry. apply with_warnings_nil.
  - intros ws. rewrite Ht. specialize (Hf ws).
    destruct (HumidifierHA.target_humidity w) as [target|e|n]; try reflexivity.
    destruct (HumidifierHA.mode c (with_warnings ws w)) as [[m'|e'|n'] w1'];
      destruct (HumidifierHA.mode c w) as [[m|e|n] w1]; simpl in *;
      try discriminate; injection Hf as ->; reflexivity.
Qed.

Section StateAttributes.
Variable VS_TO_HA_ATTRIBUTES : dict string.
Variable state_attributes : World -> HumidifierHA.Outcome (dict PyVal) * World.

Lemma rekey_rule_emitted_key reserved k k' :
  rekey_rule VS_TO_HA_ATTRIBUTES reserved k k'
  <-> k' = emitted_key VS_TO_HA_ATTRIBUTES reserved k.
Proof.
  unfold emitted_key. split.
  - intros H. destruct H as [k k' E | k E R | k E R]; rewrite E; try rewrite R;
      reflexivity.
  - intros ->. destruct (PyDict.get k VS_TO_HA_ATTRIBUTES) as [renamed|] eqn:E.
    + now apply rule_renamed.
    + destruct (PyDict.contains k reserved) eqn:R.
      * now apply rule_prefixed.
      * now apply rule_unchanged.
Qed.

(** Keys of the rename table never make the loop read the host property:
    over such keys the loop is the same whatever that property is. *)
Lemma loop_not_consulted
    (other : World -> HumidifierHA.Outcome (dict PyVal) * World) todo attr w :
  (forall k v, In (k, v) todo -> PyDict.get k VS_TO_HA_ATTRIBUTES <> None) ->
  extra_state_attributes_loop VS_TO_HA_ATTRIBUTES state_attributes todo attr w
  = extra_state_attributes_loop VS_TO_HA_ATTRIBUTES other todo attr w.
Proof.
  revert attr. induction todo as [|[k v] rest IH]; intros attr Hall; simpl;
    [reflexivity|].
  destruct (PyDict.get k VS_TO_HA_ATTRIBUTES) as [renamed|] eqn:E.
  - apply IH. intros k0 v0 Hin. apply (Hall k0 v0). now right.
  - exfalso. apply (Hall k v); [now left | exact E].
Qed.

Hypothesis Hobs : observes state_attributes.

Lemma observes_at_logged w ws :
  exists ws',
    state_attributes (with_warnings ws w)
    = (fst (state_attributes w), with_warnings ws' w).
Proof.
  destruct (Hobs (with_warnings ws w)) as [[ws1 H1] _].
  destruct (Hobs w) as [_ H2].
  exists (ws ++ ws1)%list.
  rewrite (surjective_pairing (state_attributes (with_warnings ws w))).
  now rewrite H1, H2, with_warnings_app.
Qed.

(** When the host property returns [reserved], the loop returns, and what
    it returns is one dictionary write per pair, under the emitted key. *)
Lemma loop_returns w reserved :
  fst (state_attributes w) = HumidifierHA.Returns reserved ->
  forall todo attr ws,
  exists ws',
    extra_state_attributes_loop VS_TO_HA_ATTRIBUTES state_attributes todo attr
      (with_warnings ws w)
    = (HumidifierHA.Returns
         (fold_left
            (fun d kv =>
               PyDict.set
                 (fst (emitted_key VS_TO_HA_ATTRIBUTES reserved (fst kv), snd kv))
                 (snd (emitted_key VS_TO_HA_ATTRIBUTES reserved (fst kv), snd kv))
                 d)
            todo attr),
       with_warnings ws' w).
Proof.
  intros Hres. induction todo as [|[k v] rest IH]; intros attr ws.
  - exists ws. reflexivity.
  - cbn [extra_state_attributes_loop fold_left fst snd].
    assert (Ek : emitted_key VS_TO_HA_ATTRIBUTES reserved k
                 = match PyDict.get k VS_TO_HA_ATTRIBUTES with
                   | Some renamed => renamed
                   | None => if PyDict.contains k reserved then "vs_" ++ k else k
                   end) by reflexivity.
    rewrite Ek.
    destruct (PyDict.get k VS_TO_HA_ATTRIBUTES) as [renamed|] eqn:E.
    + apply IH.
    + destruct (observes_at_logged w ws) as [ws1 E1]. rewrite E1, Hres.
      destruct (PyDict.contains k reserved); apply IH.
Qed.

(** When the host property raises, the loop raises the same exception at
    the first key that is not in the rename table. *)
Lemma loop_raises w todo attr ws :
  (exists k v, In (k, v) todo /\ PyDict.get k VS_TO_HA_ATTRIBUTES = None) ->
  (forall e, fst (state_attributes w) = HumidifierHA.Raises e ->
     exists ws',
       extra_state_attributes_loop VS_TO_HA_ATTRIBUTES state_attributes todo attr
         (with_warnings ws w)
       = (HumidifierHA.Raises e, with_warnings ws' w))
  /\ (forall n, fst (state_attributes w) = HumidifierHA.RaisesAttributeError n ->
        exists ws',
          extra_state_attributes_loop VS_TO_HA_ATTRIBUTES state_attributes todo attr
            (with_warnings ws w)
          = (HumidifierHA.RaisesAttributeError n, with_warnings ws' w)).
Proof.
  revert attr. induction todo as [|[k v] rest IH]; intros attr [k0 [v0 [Hin Hk]]].
  - contradiction.
  - cbn [extra_state_attributes_loop].
    destruct (PyDict.get k VS_TO_HA_ATTRIBUTES) as [renamed|] eqn:E.
    + apply IH. destruct Hin as [Eq|Hin].
      * injection Eq as -> ->. congruence.
      * exists k0, v0. auto.
    + destruct (observes_at_logged w ws) as [ws1 E1]. rewrite E1.
      split; intros x Hx; rewrite Hx; exists ws1; reflexivity.
Qed.
End StateAttributes.

Example extra_state_attributes_concrete :
  HumidifierEntity_state_attributes vesync_consts sample_world
  = (HumidifierHA.Returns [("humidity", VInt 50); ("mode", VStr "normal")],
     sample_world)
  /\ extra_state_attributes sample_rename_table
       (HumidifierEntity_state_attributes vesync_consts) sample_world
     = (HumidifierHA.Returns
          [("current_humidity", VInt 45); ("vs_mode", VStr "manual");
           ("water_lacks", VBool false)],
        sample_world)
  /\ extra_state_attributes sample_rename_table
       (HumidifierEntity_state_attributes vesync_consts) dry_world
     = (HumidifierHA.Raises (KeyError "auto_target_humidity"), dry_world).
Proof. repeat split; reflexivity. Qed.

(** C8, as stated, fails: the device whose only state key is [water_lacks]
    has a pair in its state mapping, but no rule is applied to it and no
    key is emitted.  The key is not in the rename table, so the loop reads
    the host's [state_attributes], which reads [target_humidity], and that
    raises [KeyError] on a configuration without [auto_target_humidity]. *)
Lemma extra_state_attributes_raises_counterexample :
  ~ (forall (w : World) (k : string) (v : PyVal),
        In (k, v) (PyDict.items (details (smarthumidifier w))) ->
        exists out w1,
          extra_state_attributes sample_rename_table
            (HumidifierEntity_state_attributes vesync_consts) w
          = (HumidifierHA.Returns out, w1)
          /\ exists reserved k',
               rekey_rule sample_rename_table reserved k k'
               /\ In k' (PyDict.keys out)).
Proof.
  intros H.
  destruct (H dry_world "water_lacks" (VBool true) (or_introl eq_refl))
    as (out & w1 & E & _).
  vm_compute in E. discriminate E.
Qed.

(** C8, amended: the rules are applied as long as the host's
    [state_attributes] can be read.  When that property returns, each state
    key is re-keyed by exactly one of the three rules, taken in order
    (rename table, then the [vs_] prefix on a reserved host attribute name,
    then unchanged); every pair of the state mapping emits its re-keyed key;
    nothing else is emitted; the emitted key carries the value of the pair
    unless a later pair is emitted under the same key; and only warnings are
    added to the world.  When the property raises and some state key is not
    in the rename table, [extra_state_attributes] raises the same exception
    and returns no mapping.  When every state key is in the rename table,
    the property is not read at all. *)
Theorem extra_state_attributes_rules (T : dict string)
    (state_attributes : World -> HumidifierHA.Outcome (dict PyVal) * World)
    (w : World) :
  observes state_attributes ->
  let state := PyDict.items (details (smarthumidifier w)) in
  (forall reserved,
      fst (state_attributes w) = HumidifierHA.Returns reserved ->
      exists out ws,
        extra_state_attributes T state_attributes w
        = (HumidifierHA.Returns out, with_warnings ws w)
        /\ (forall k, exists k', rekey_rule T reserved k k'
                                 /\ forall k'', rekey_rule T reserved k k'' -> k'' = k')
        /\ (forall k v, In (k, v) state ->
              exists k', rekey_rule T reserved k k' /\ In k' (PyDict.keys out))
        /\ (forall k' v, PyDict.get k' out = Some v ->
              exists k, In (k, v) state /\ rekey_rule T reserved k k')
        /\ (forall pre k v post k',
              state = (pre ++ (k, v) :: post)%list ->
              rekey_rule T reserved k k' ->
              (forall k2 v2, In (k2, v2) post -> ~ rekey_rule T reserved k2 k') ->
              PyDict.get k' out = Some v))
  /\ ((exists k v, In (k, v) state /\ PyDict.get k T = None) ->
      (forall e, fst (state_attributes w) = HumidifierHA.Raises e ->
         exists ws, extra_state_attributes T state_attributes w
                    = (HumidifierHA.Raises e, with_warnings ws w))
      /\ (forall n, fst (state_attributes w) = HumidifierHA.RaisesAttributeError n ->
            exists ws, extra_state_attributes T state_attributes w
                       = (HumidifierHA.RaisesAttributeError n, with_warnings ws w)))
  /\ ((forall k v, In (k, v) state -> PyDict.get k T <> None) ->
      forall other,
        extra_state_attributes T state_attributes w
        = extra_state_attributes T other w).
Proof.
  intros Hobs state. split; [|split].
  - intros reserved Hres.
    destruct (loop_returns T state_attributes Hobs w reserved Hres state
                PyDict.empty []) as [ws Eloop].
    rewrite with_warnings_nil in Eloop.
    set (f := fun kv : string * PyVal => (emitted_key T reserved (fst kv), snd kv))
      in Eloop.
    eexists _, ws. split; [exact Eloop|].
    split; [|split; [|split]].
    + intros k. exists (emitted_key T reserved k). split.
      * now apply rekey_rule_emitted_key.
      * intros k'' H. now apply rekey_rule_emitted_key in H.
    + intros k v Hin. exists (emitted_key T reserved k). split.
      * now apply rekey_rule_emitted_key.
      * apply (fold_set_writes f state PyDict.empty (k, v) Hin).
    + intros k' v Hget.
      apply (fold_set_origin f) in Hget. destruct Hget as [[[k v0] [Hin E]]|Hget].
      * unfold f in E. simpl in E. injection E as <- ->.
        exists k. split; [exact Hin | now apply rekey_rule_emitted_key].
      * discriminate Hget.
    + intros pre k v post k' Est Hrule Hlater.
      apply rekey_rule_emitted_key in Hrule. subst k'. rewrite Est.
      apply (fold_set_last f pre post (k, v) PyDict.empty).
      intros [k2 v2] Hin E. simpl in E.
      apply (Hlater k2 v2 Hin). apply rekey_rule_emitted_key. now rewrite E.
  - intros Hsome.
    destruct (loop_raises T state_attributes Hobs w state PyDict.empty [] Hsome)
      as [Hr Ha].
    rewrite with_warnings_nil in Hr, Ha. split; [exact Hr | exact Ha].
  - intros Hall other. apply loop_not_consulted. exact Hall.
Qed.

Lemma extra_state_attributes_rules_witness :
  observes (HumidifierEntity_state_attributes vesync_consts)
  /\ fst (HumidifierEntity_state_attributes vesync_consts sample_world)
     = HumidifierHA.Returns [("humidity", VInt 50); ("mode", VStr "normal")]
  /\ (exists out ws,
        extra_state_attributes sample_rename_table
          (HumidifierEntity_state_attributes vesync_consts) sample_world
        = (HumidifierHA.Returns out, with_warnings ws sample_world)
        /\ PyDict.get "vs_mode" out = Some (VStr "manual"))
  /\ (exists ws,
        extra_state_attributes sample_rename_table
          (HumidifierEntity_state_attributes vesync_consts) dry_world
        = (HumidifierHA.Raises (KeyError "auto_target_humidity"),
           with_warnings ws dry_world)).
Proof.
  pose proof (HumidifierEntity_state_attributes_observes vesync_consts) as Hobs.
  split; [exact Hobs|]. split; [reflexivity|]. split.
  - destruct (extra_state_attributes_rules sample_rename_table
                (HumidifierEntity_state_attributes vesync_consts) sample_world Hobs)
      as (Hret & _ & _).
    destruct (Hret [("humidity", VInt 50); ("mode", VStr "normal")] eq_refl)
      as (out & ws & E & _ & _ & _ & Hlast).
    exists out, ws. split; [exact E|].
    apply (Hlast [("humidity", VInt 45)] "mode" (VStr "manual")
             [("water_lacks", VBool false)] "vs_mode" eq_refl).
    + apply (rule_prefixed sample_rename_table _ "mode"); reflexivity.
    + intros k2 v2 [E2|[]] Hrule. injection E2 as <- <-.
      apply rekey_rule_emitted_key in Hrule. discriminate Hrule.
  - destruct (extra_state_attributes_rules sample_rename_table
                (HumidifierEntity_state_attributes vesync_consts) dry_world Hobs)
      as (_ & Hraise & _).
    apply Hraise; [|reflexivity].
    exists "water_lacks", (VBool true). split; [now left | reflexivity].
Defined.

(** ** The binary-sensor adapters *)
Lemma in_if {A} (b : bool) (l : list A) (e : A) :
  In e (if b then l else []) <-> b = true /\ In e l.
Proof. destruct b; simpl; intuition discriminate. Qed.

Section Discovery.
Context {Coordinator : Type}.
Variable T : dict (list string).
Variable coordinator : Coordinator.

Lemma fold_append_airfryer dev (stypes : list (list string))
    (es : list (BinarySensor Coordinator)) :
  fold_left
    (fun (es : list (BinarySensor Coordinator)) stype =>
       (es ++ [VeSyncairfryerSensor dev coordinator stype])%list)
    stypes es
  = (es ++ map (VeSyncairfryerSensor dev coordinator) stypes)%list.
Proof.
  revert es. induction stypes as [|s r IH]; intros es; simpl.
  - now rewrite app_nil_r.
  - rewrite IH, <- app_assoc. reflexivity.
Qed.

Lemma setup_device_appends es dev :
  setup_device T coordinator es dev
  = (es ++ device_entities T coordinator dev)%list.
Proof.
  unfold setup_device, device_entities, has_feature. simpl.
  rewrite fold_append_airfryer.
  destruct (hasattr dev "fryer_status");
    destruct (PyDict.contains "water_lacks" (details dev));
    destruct (PyDict.contains "water_tank_lifted" (details dev));
    destruct (PyDict.contains "filter_open_state" (details dev));
    simpl; repeat rewrite <- app_assoc; repeat rewrite app_nil_r; reflexivity.
Qed.

Lemma _setup_entities_flat_map devices :
  _setup_entities T devices coordinator
  = flat_map (device_entities T coordinator) devices.
Proof.
  unfold _setup_entities.
  assert (G : forall es,
             fold_left (setup_device T coordinator) devices es
             = (es ++ flat_map (device_entities T coordinator) devices)%list).
  { induction devices as [|d r IH]; intros es; simpl.
    - now rewrite app_nil_r.
    - rewrite IH, setup_device_appends, <- app_assoc. reflexivity. }
  apply (G []).
Qed.

Lemma in_device_entities e dev :
  In e (device_entities T coordinator dev) <->
  (exists stype, e = VeSyncairfryerSensor dev coordinator stype
                 /\ hasattr dev "fryer_status" = true
                 /\ In stype (PyDict.values T))
  \/ (e = VeSyncOutOfWaterSensor dev coordinator
      /\ PyDict.contains "water_lacks" (details dev) = true)
  \/ (e = VeSyncWaterTankLiftedSensor dev coordinator
      /\ PyDict.contains "water_tank_lifted" (details dev) = true)
  \/ (e = VeSyncFilterOpenStateSensor dev coordinator
      /\ PyDict.contains "filter_open_state" (details dev) = true).
Proof.
  unfold device_entities. rewrite !in_app_iff, !in_if, in_map_iff. simpl. split.
  - intros [(Hf & s & <- & Hs)|[(Hc & [<-|[]])|[(Hc & [<-|[]])|(Hc & [<-|[]])]]];
      eauto 10.
  - intros [[s (-> & Hf & Hs)]|[[-> Hc]|[[-> Hc]|[-> Hc]]]]; eauto 10.
Qed.
End Discovery.

(** C6: in the list [_setup_entities] hands to the host, an adapter of a
    kind wraps a device exactly when the device is in the batch and exposes
    the capability of that kind: the [fryer_status] attribute for each entry
    of the fryer table, the state keys [water_lacks], [water_tank_lifted]
    and [filter_open_state] for the three humidifier sensors.  A device
    whose only state key is [water_lacks], with the value true, and which
    has no [fryer_status], yields the out-of-water adapter alone, and its
    [is_on] is true. *)
Theorem discovery_by_capability {Coordinator : Type} (T : dict (list string))
    (devices : list Device) (coordinator : Coordinator) (dev : Device) :
  let entities := _setup_entities T devices coordinator in
  (forall stype, In stype (PyDict.values T) ->
     (In (VeSyncairfryerSensor dev coordinator stype) entities
      <-> In dev devices /\ hasattr dev "fryer_status" = true))
  /\ (In (VeSyncOutOfWaterSensor dev coordinator) entities
      <-> In dev devices /\ In "water_lacks" (PyDict.keys (details dev)))
  /\ (In (VeSyncWaterTankLiftedSensor dev coordinator) entities
      <-> In dev devices /\ In "water_tank_lifted" (PyDict.keys (details dev)))
  /\ (In (VeSyncFilterOpenStateSensor dev coordinator) entities
      <-> In dev devices /\ In "filter_open_state" (PyDict.keys (details dev)))
  /\ (hasattr dev "fryer_status" = false ->
      details dev = [("water_lacks", VBool true)] ->
      _setup_entities T [dev] coordinator = [VeSyncOutOfWaterSensor dev coordinator]
      /\ is_on (VeSyncOutOfWaterSensor dev coordinator) = Ok (VBool true)).
Proof.
  intros entities. unfold entities. clear entities.
  assert (Hin : forall e,
             In e (_setup_entities T devices coordinator)
             <-> exists d, In d devices /\ In e (device_entities T coordinator d)).
  { intros e. rewrite _setup_entities_flat_map. apply in_flat_map. }
  split; [|split; [|split; [|split]]].
  - intros stype Hs. rewrite Hin. split.
    + intros [d [Hd He]]. apply in_device_entities in He.
      destruct He as [[s (E & Hf & _)]|[[E _]|[[E _]|[E _]]]]; try discriminate.
      injection E as <- _. auto.
    + intros [Hd Hf]. exists dev. split; [exact Hd|].
      apply in_device_entities. left. exists stype. auto.
  - rewrite Hin, <- contains_keys. split.
    + intros [d [Hd He]]. apply in_device_entities in He.
      destruct He as [[s (E & _ & _)]|[[E Hc]|[[E _]|[E _]]]]; try discriminate.
      injection E as <-. auto.
    + intros [Hd Hc]. exists dev. split; [exact Hd|].
      apply in_device_entities. right; left. auto.
  - rewrite Hin, <- contains_keys. split.
    + intros [d [Hd He]]. apply in_device_entities in He.
      destruct He as [[s (E & _ & _)]|[[E _]|[[E Hc]|[E _]]]]; try discriminate.
      injection E as <-. auto.
    + intros [Hd Hc]. exists dev. split; [exact Hd|].
      apply in_device_entities. right; right; left. auto.
  - rewrite Hin, <- contains_keys. split.
    + intros [d [Hd He]]. apply in_device_entities in He.
      destruct He as [[s (E & _ & _)]|[[E _]|[[E _]|[E Hc]]]]; try discriminate.
      injection E as <-. auto.
    + intros [Hd Hc]. exists dev. split; [exact Hd|].
      apply in_device_entities. right; right; right. auto.
  - intros Hf Hdet. split.
    + unfold _setup_entities, setup_device, has_feature. simpl.
      rewrite Hf, Hdet. reflexivity.
    + simpl. rewrite Hdet. reflexivity.
Qed.

Lemma discovery_by_capability_witness :
  hasattr dry_humidifier "fryer_status" = false
  /\ details dry_humidifier = [("water_lacks", VBool true)]
  /\ _setup_entities sample_fryer_table [dry_humidifier] tt
     = [VeSyncOutOfWaterSensor dry_humidifier tt]
  /\ is_on (VeSyncOutOfWaterSensor dry_humidifier tt) = Ok (VBool true)
  /\ In ["is_heating"; "preheating"; "mdi:pot-steam-outline"]
       (PyDict.values sample_fryer_table)
  /\ In (VeSyncairfryerSensor sample_fryer tt
           ["is_heating"; "preheating"; "mdi:pot-steam-outline"])
       (_setup_entities sample_fryer_table [dry_humidifier; sample_fryer] tt).
Proof.
  split; [reflexivity|]. split; [reflexivity|].
  destruct (discovery_by_capability sample_fryer_table [dry_humidifier] tt
              dry_humidifier) as (_ & _ & _ & _ & Hex).
  destruct (Hex eq_refl eq_refl) as [Hlist Hon].
  split; [exact Hlist|]. split; [exact Hon|].
  assert (Hs : In ["is_heating"; "preheating"; "mdi:pot-steam-outline"]
                 (PyDict.values sample_fryer_table)) by (simpl; tauto).
  split; [exact Hs|].
  destruct (discovery_by_capability sample_fryer_table
              [dry_humidifier; sample_fryer] tt sample_fryer) as (Hfry & _).
  apply (Hfry _ Hs). split; [simpl; tauto | reflexivity].
Defined.

Example discovery_concrete :
  _setup_entities sample_fryer_table [dry_humidifier; sample_fryer; sample_humidifier] tt
  = [ VeSyncOutOfWaterSensor dry_humidifier tt;
      VeSyncairfryerSensor sample_fryer tt
        ["is_heating"; "preheating"; "mdi:pot-steam-outline"];
      VeSyncOutOfWaterSensor sample_humidifier tt ].
Proof. reflexivity. Qed.

(** *** Identifiers *)

Lemma append_assoc (a b d : string) : ((a ++ b) ++ d = a ++ (b ++ d))%string.
Proof. induction a as [|x a IH]; simpl; [reflexivity | now rewrite IH]. Qed.

(** C9: the [unique_id] of a binary-sensor adapter is the base identifier of
    its device, a dash, and the suffix fixed by the kind of sensor; two
    adapters of the same kind on devices with the same base identifier have
    the same [unique_id], whatever the coordinator and the rest of the
    device state are. *)
Theorem unique_id_deterministic {Coordinator : Type}
    (base_unique_id : Device -> string) (e1 e2 : BinarySensor Coordinator) :
  sensor_kind e1 = sensor_kind e2 ->
  base_unique_id (sensor_device e1) = base_unique_id (sensor_device e2) ->
  unique_id base_unique_id e1 = unique_id base_unique_id e2
  /\ unique_id base_unique_id e1
     = match kind_suffix (sensor_kind e1) with
       | Ok suffix => Ok (base_unique_id (sensor_device e1) ++ "-" ++ suffix)
       | Raise x => Raise x
       end.
Proof.
  intros Hk Hb. split.
  - destruct e1 as [d1 c1 s1|d1 c1|d1 c1|d1 c1];
      destruct e2 as [d2 c2 s2|d2 c2|d2 c2|d2 c2];
      simpl in Hk, Hb; try discriminate Hk; simpl; rewrite Hb; try reflexivity.
    injection Hk as ->. reflexivity.
  - destruct e1 as [d1 c1 s1|d1 c1|d1 c1|d1 c1]; simpl; try reflexivity.
    destruct (index s1 0); [|reflexivity].
    now rewrite append_assoc.
Qed.

Lemma unique_id_deterministic_witness :
  sensor_kind (VeSyncOutOfWaterSensor sample_humidifier 1)
  = sensor_kind (VeSyncOutOfWaterSensor sample_humidifier 2)
  /\ unique_id sample_base_unique_id (VeSyncOutOfWaterSensor sample_humidifier 1)
     = unique_id sample_base_unique_id (VeSyncOutOfWaterSensor sample_humidifier 2)
  /\ unique_id sample_base_unique_id (VeSyncOutOfWaterSensor sample_humidifier 1)
     = Ok "uuid-1-out_of_water".
Proof.
  split; [reflexivity|].
  destruct (unique_id_deterministic sample_base_unique_id
              (VeSyncOutOfWaterSensor sample_humidifier 1)
              (VeSyncOutOfWaterSensor sample_humidifier 2)
              eq_refl eq_refl) as [H1 H2].
  split; [exact H1 | exact H2].
Defined.

Example unique_id_concrete :
  unique_id sample_base_unique_id
    (VeSyncairfryerSensor sample_fryer tt
       ["is_heating"; "preheating"; "mdi:pot-steam-outline"])
  = Ok "uuid-3-is_heating"
  /\ unique_id sample_base_unique_id (VeSyncWaterTankLiftedSensor dry_humidifier tt)
     = Ok "uuid-2-water_tank_lifted"
  /\ unique_id sample_base_unique_id (VeSyncFilterOpenStateSensor dry_humidifier tt)
     = Ok "uuid-2-filter-open-state".
Proof. repeat split; reflexivity. Qed.

(** * Further properties of the code *)

(** ** More on dictionaries and the mode tables *)
Section DictWrites.
Context {V : Type}.
Implicit Types (d : dict V) (k : string) (v : V).

Lemma set_In d k v k0 v0 :
  In (k0, v0) (PyDict.set k v d) -> v0 = v /\ k0 = k \/ In (k0, v0) d.
Proof.
  induction d as [|[k' v'] r IH]; simpl.
  - intros [E|[]]. injection E as <- <-. now left.
  - destruct (String.eqb_spec k k') as [->|Hne]; simpl.
    + intros [E|H]; [injection E as <- <-; now left | right; now right].
    + intros [E|H]; [right; now left|].
      destruct (IH H) as [?|?]; [now left | right; now right].
Qed.

Lemma set_NoDup_keys d k v :
  NoDup (PyDict.keys d) -> NoDup (PyDict.keys (PyDict.set k v d)).
Proof.
  induction d as [|[k' v'] r IH]; simpl; intros H.
  - constructor; [intros [] | constructor].
  - inversion H as [|x l Hx Hl]; subst.
    destruct (String.eqb_spec k k') as [->|Hne]; simpl.
    + now constructor.
    + constructor; [|now apply IH].
      intros Hin. apply (keys_set r k v k') in Hin.
      destruct Hin as [E|Hin]; [now apply Hne | now apply Hx].
Qed.

Lemma In_get d k v :
  NoDup (PyDict.keys d) -> In (k, v) d -> PyDict.get k d = Some v.
Proof.
  induction d as [|[k' v'] r IH]; simpl; intros Hnd Hin; [contradiction|].
  inversion Hnd as [|x l Hx Hl]; subst.
  destruct Hin as [E|Hin].
  - injection E as -> ->. now rewrite String.eqb_refl.
  - destruct (String.eqb_spec k k') as [->|Hne]; [|now apply IH].
    exfalso. apply Hx. now apply (in_map fst) in Hin.
Qed.

Lemma set_length d k v :
  length (PyDict.set k v d)
  = if PyDict.contains k d then length d else S (length d).
Proof.
  unfold PyDict.contains. induction d as [|[k' v'] r IH]; simpl; [reflexivity|].
  destruct (String.eqb_spec k k') as [->|Hne]; simpl; [reflexivity|].
  rewrite IH. now destruct (PyDict.get k r).
Qed.
End DictWrites.

Lemma fold_set_NoDup {A V} (f : A -> string * V) (xs : list A) (acc : dict V) :
  NoDup (PyDict.keys acc) ->
  NoDup (PyDict.keys
           (fold_left (fun d x => PyDict.set (fst (f x)) (snd (f x)) d) xs acc)).
Proof.
  revert acc. induction xs as [|x xs IH]; simpl; intros acc H; [exact H|].
  apply IH. now apply set_NoDup_keys.
Qed.

Lemma fold_set_In {A V} (f : A -> string * V) (xs : list A) (acc : dict V) k v :
  In (k, v) (fold_left (fun d x => PyDict.set (fst (f x)) (snd (f x)) d) xs acc) ->
  (exists x, In x xs /\ f x = (k, v)) \/ In (k, v) acc.
Proof.
  revert acc. induction xs as [|x xs IH]; simpl; intros acc H; [now right|].
  destruct (IH _ H) as [[y [Hy E]]|H'].
  - left. exists y. auto.
  - apply set_In in H'. destruct H' as [[-> ->]|H']; [|now right].
    left. exists x. split; [now left | now destruct (f x)].
Qed.

Lemma of_items_NoDup {V} (kvs : list (string * V)) :
  NoDup (PyDict.keys (PyDict.of_items kvs)).
Proof.
  unfold PyDict.of_items.
  apply (fold_set_NoDup (fun kv : string * V => kv)). constructor.
Qed.

Lemma of_items_In {V} (kvs : list (string * V)) k v :
  In (k, v) (PyDict.of_items kvs) -> In (k, v) kvs.
Proof.
  unfold PyDict.of_items. intros H.
  apply (fold_set_In (fun kv : string * V => kv)) in H.
  destruct H as [[x [Hx E]]|[]]. now subst.
Qed.

(** X1: whatever the mode names are, a host mode that [_get_vs_mode]
    translates is given back by [_get_ha_mode] on the result, without a
    warning: host to vendor to host is the identity on the reversed
    table. *)
Theorem host_round_trip (c : ModeConsts) (ha vs : string) :
  PyDict.get ha (HA_TO_VS_MODE_MAP c) = Some vs ->
  _get_vs_mode c ha = (Some vs, []) /\ _get_ha_mode c vs = (Some ha, []).
Proof.
  intros H. split.
  - unfold _get_vs_mode. now rewrite H.
  - apply get_In, of_items_In in H.
    apply in_map_iff in H. destruct H as [[vs' ha'] [E Hin]].
    simpl in E. injection E as -> ->.
    assert (G : PyDict.get vs (VS_TO_HA_MODE_MAP c) = Some ha)
      by (apply In_get; [apply of_items_NoDup | exact Hin]).
    unfold _get_ha_mode. now rewrite G.
Qed.

Lemma host_round_trip_witness :
  PyDict.get "auto" (HA_TO_VS_MODE_MAP vesync_consts) = Some "humidity"
  /\ _get_vs_mode vesync_consts "auto" = (Some "humidity", [])
  /\ _get_ha_mode vesync_consts "humidity" = (Some "auto", []).
Proof.
  split; [reflexivity|].
  exact (host_round_trip vesync_consts "auto" "humidity" eq_refl).
Defined.

(** X2: the keys of the reversed table are exactly the host modes the
    vendor-to-host table holds, and the reversed table never has more
    entries than the vendor-to-host table. *)
Theorem reversed_table_keys (c : ModeConsts) :
  (forall ha, In ha (PyDict.keys (HA_TO_VS_MODE_MAP c))
              <-> In ha (PyDict.values (VS_TO_HA_MODE_MAP c)))
  /\ length (HA_TO_VS_MODE_MAP c) <= length (VS_TO_HA_MODE_MAP c).
Proof.
  split.
  - intros ha. split; [|apply ha_values_are_keys].
    intros H. apply get_Some_keys in H. destruct H as [vs H].
    apply get_In, of_items_In in H.
    apply in_map_iff in H. destruct H as [[vs' ha'] [E Hin]].
    simpl in E. injection E as -> ->.
    unfold PyDict.values. now apply (in_map snd) in Hin.
  - unfold HA_TO_VS_MODE_MAP, PyDict.of_items, PyDict.items.
    rewrite fold_left_over_map.
    assert (G : forall (xs : list (string * string)) (acc : dict string),
               length (fold_left
                         (fun d (kv : string * string) =>
                            PyDict.set (fst (snd kv, fst kv)) (snd (snd kv, fst kv)) d)
                         xs acc)
               <= length acc + length xs).
    { induction xs as [|x xs IH]; intros acc; simpl; [lia|].
      eapply Nat.le_trans; [apply IH|].
      rewrite set_length.
      destruct (PyDict.contains (snd x) acc); lia. }
    apply (G (VS_TO_HA_MODE_MAP c) PyDict.empty).
Qed.

(** X3: whatever string is asked, [_get_ha_mode] answers [None] or one of
    the three host modes, and [_get_vs_mode] answers [None] or one of the
    four vendor modes; a warning is logged exactly when the answer is
    [None]. *)
Theorem translations_stay_in_tables (c : ModeConsts) (s : string) :
  (forall ha, fst (_get_ha_mode c s) = Some ha ->
     In ha [MODE_AUTO c; MODE_NORMAL c; MODE_SLEEP c])
  /\ (forall vs, fst (_get_vs_mode c s) = Some vs ->
        In vs [VS_MODE_AUTO c; VS_MODE_HUMIDITY c; VS_MODE_MANUAL c; VS_MODE_SLEEP c])
  /\ (snd (_get_ha_mode c s) = [] <-> fst (_get_ha_mode c s) <> None)
  /\ (snd (_get_vs_mode c s) = [] <-> fst (_get_vs_mode c s) <> None).
Proof.
  assert (Hfwd : forall k v, In (k, v) (VS_TO_HA_MODE_MAP c) ->
                   In k [VS_MODE_AUTO c; VS_MODE_HUMIDITY c; VS_MODE_MANUAL c;
                         VS_MODE_SLEEP c]
                   /\ In v [MODE_AUTO c; MODE_NORMAL c; MODE_SLEEP c]).
  { intros k v H. apply of_items_In in H. simpl in H.
    destruct H as [E|[E|[E|[E|[]]]]]; injection E as <- <-; simpl; tauto. }
  split; [|split; [|split]].
  - intros ha H. unfold _get_ha_mode in H.
    destruct (PyDict.get s (VS_TO_HA_MODE_MAP c)) as [x|] eqn:E; simpl in H;
      [|discriminate].
    injection H as ->. apply get_In in E. now apply Hfwd in E.
  - intros vs H. unfold _get_vs_mode in H.
    destruct (PyDict.get s (HA_TO_VS_MODE_MAP c)) as [x|] eqn:E; simpl in H;
      [|discriminate].
    injection H as ->. apply get_In, of_items_In in E.
    apply in_map_iff in E. destruct E as [[vs' ha'] [E Hin]].
    simpl in E. injection E as -> ->. now apply Hfwd in Hin.
  - unfold _get_ha_mode.
    destruct (PyDict.get s (VS_TO_HA_MODE_MAP c)); simpl;
      split; intros H; congruence.
  - unfold _get_vs_mode.
    destruct (PyDict.get s (HA_TO_VS_MODE_MAP c)); simpl;
      split; intros H; congruence.
Qed.

(** ** More on the humidifier adapter *)

(** X4: [available_modes] is computed once.  After a first read the cache
    slot is filled, and every later read returns the same list and changes
    nothing (no warning is logged again), whatever the device has become in
    between, its mode list included. *)
Theorem available_modes_is_frozen (c : ModeConsts) (w : World) (d : Device) :
  let first := available_modes c w in
  let later := with_device d (snd first) in
  available_modes c later = (fst first, later)
  /\ available_modes c (snd first) = (fst first, snd first).
Proof.
  simpl.
  destruct (available_modes_frame c w) as (modes & w1 & E & _ & _ & _ & Hk & _).
  rewrite E. simpl. unfold available_modes, bind, get_world. simpl.
  rewrite Hk. split; reflexivity.
Qed.

Example available_modes_ignores_new_mist_modes :
  let first := available_modes vesync_consts sample_world in
  let later := with_device (with_mist_modes (Some ["sleep"]) sample_humidifier)
                 (snd first) in
  fst (available_modes vesync_consts later) = Ok ["auto"; "sleep"; "normal"]
  /\ translate_known vesync_consts ["sleep"] = ["sleep"].
Proof. split; reflexivity. Qed.

Lemma translate_known_accounting (c : ModeConsts) (vs_modes : list string) :
  length (translate_known c vs_modes) + length (dropped_warnings c vs_modes)
  = length vs_modes.
Proof.
  unfold translate_known, dropped_warnings, PyDict.contains.
  induction vs_modes as [|vs r IH]; simpl; [reflexivity|].
  destruct (PyDict.get vs (VS_TO_HA_MODE_MAP c)); simpl.
  - now rewrite IH.
  - rewrite <- plus_n_Sm. now rewrite IH.
Qed.

(** X5: on the first read, every entry of [mist_modes] is accounted for:
    it either gives one element of [available_modes] or one logged warning,
    so the list is never longer than [mist_modes]; a null [mist_modes] gives
    the empty list and no warning. *)
Theorem available_modes_accounting (c : ModeConsts) (w : World) :
  cached_available_modes w = None ->
  exists modes w1,
    available_modes c w = (Ok modes, w1)
    /\ length modes + length (warnings w1)
       = length (match mist_modes (smarthumidifier w) with
                 | Some vs_modes => vs_modes
                 | None => []
                 end)
         + length (warnings w)
    /\ (mist_modes (smarthumidifier w) = None ->
        modes = [] /\ warnings w1 = warnings w).
Proof.
  intros Hc. unfold available_modes, bind, get_world. rewrite Hc.
  rewrite available_modes_body_spec.
  destruct (mist_modes (smarthumidifier w)) as [vs_modes|].
  - eexists _, _. split; [reflexivity|]. split; [|discriminate].
    simpl. rewrite length_app.
    pose proof (translate_known_accounting c vs_modes). lia.
  - eexists _, _. split; [reflexivity|]. simpl. auto.
Qed.

Lemma available_modes_accounting_witness :
  cached_available_modes sample_world = None
  /\ exists modes w1,
       available_modes vesync_consts sample_world = (Ok modes, w1)
       /\ length modes + length (warnings w1) = 4 + 0
       /\ (mist_modes (smarthumidifier sample_world) = None ->
           modes = [] /\ warnings w1 = warnings sample_world).
Proof.
  split; [reflexivity|].
  exact (available_modes_accounting vesync_consts sample_world eq_refl).
Defined.

Section CommandFacts.
Variable c : ModeConsts.
Context {vendor : VendorLibrary}.

Lemma app_one_neq {A} (l : list A) (x : A) : l <> (l ++ [x])%list.
Proof.
  intros E. apply (f_equal (@length A)) in E. rewrite length_app in E.
  simpl in E. lia.
Qed.

Lemma set_humidity_run humidity w :
  set_humidity humidity w
  = if in_range min_humidity (max_humidity + 1) humidity
    then
      let w1 := with_device (snd (vs_set_humidity (smarthumidifier w) humidity))
                  (with_call (CallSetHumidity humidity) w) in
      if fst (vs_set_humidity (smarthumidifier w) humidity)
      then (Ok tt, with_update w1)
      else (Raise (ValueError "An error occurred while setting humidity."), w1)
    else
      (Raise (ValueError
         "{humidity} is not between {self.min_humidity} and {self.max_humidity} (inclusive)"),
       w).
Proof.
  unfold set_humidity.
  destruct (in_range min_humidity (max_humidity + 1) humidity); simpl;
    [|reflexivity].
  unfold bind, smarthumidifier_set_humidity.
  destruct (vs_set_humidity (smarthumidifier w) humidity) as [[|] d]; reflexivity.
Qed.

Lemma set_mode_run mode w modes w1 :
  available_modes c w = (Ok modes, w1) ->
  set_mode c mode w
  = if str_in mode modes
    then
      let w2 := with_warnings (snd (_get_vs_mode c mode)) w1 in
      let vs_mode := fst (_get_vs_mode c mode) in
      let w3 := with_device (snd (vs_set_humidity_mode (smarthumidifier w2) vs_mode))
                  (with_call (CallSetHumidityMode vs_mode) w2) in
      if fst (vs_set_humidity_mode (smarthumidifier w2) vs_mode)
      then (Ok tt, with_update w3)
      else (Raise (ValueError "An error occurred while setting mode."), w3)
    else
      (Raise (ValueError
         "{mode} is not one of the valid available modes: {self.available_modes}"),
       w1).
Proof.
  intros Ha. unfold set_mode, bind. rewrite Ha.
  destruct (str_in mode modes); simpl; [|reflexivity].
  unfold logged, smarthumidifier_set_humidity_mode.
  destruct (vs_set_humidity_mode _ _) as [[|] d]; reflexivity.
Qed.
End CommandFacts.

(** X6: [set_humidity] reaches the vendor library exactly for the integers
    from 30 to 80, both ends included: the call is recorded if and only if
    the value is in that interval. *)
Theorem set_humidity_reaches_vendor_iff `{VendorLibrary} (humidity : Z) (w : World) :
  vendor_calls (snd (set_humidity humidity w))
  = (vendor_calls w ++ [CallSetHumidity humidity])%list
  <-> (30 <= humidity <= 80)%Z.
Proof.
  rewrite set_humidity_run. unfold in_range, min_humidity, max_humidity,
    _attr_min_humidity, _attr_max_humidity, MIN_HUMIDITY, MAX_HUMIDITY.
  destruct (30 <=? humidity)%Z eqn:E1; destruct (humidity <? 80 + 1)%Z eqn:E2;
    simpl.
  - apply Z.leb_le in E1. apply Z.ltb_lt in E2.
    destruct (fst (vs_set_humidity (smarthumidifier w) humidity)); simpl;
      split; intros; [lia | reflexivity | lia | reflexivity].
  - apply Z.ltb_ge in E2. split; [intros E; now apply app_one_neq in E | lia].
  - apply Z.leb_gt in E1. split; [intros E; now apply app_one_neq in E | lia].
  - apply Z.leb_gt in E1. split; [intros E; now apply app_one_neq in E | lia].
Qed.

(** X7: a [set_humidity] that passes validation returns normally exactly
    when the vendor reports success; one refresh is scheduled on success and
    none on failure; the device is the one the vendor call left, and the
    cache slot and the log are untouched. *)
Theorem set_humidity_follows_vendor `{VendorLibrary} (humidity : Z) (w : World) :
  (min_humidity <= humidity <= max_humidity)%Z ->
  let answer := vs_set_humidity (smarthumidifier w) humidity in
  let w1 := snd (set_humidity humidity w) in
  (fst (set_humidity humidity w) = Ok tt <-> fst answer = true)
  /\ (fst answer = false ->
      fst (set_humidity humidity w)
      = Raise (ValueError "An error occurred while setting humidity."))
  /\ scheduled_updates w1
     = scheduled_updates w + (if fst answer then 1 else 0)
  /\ smarthumidifier w1 = snd answer
  /\ cached_available_modes w1 = cached_available_modes w
  /\ warnings w1 = warnings w.
Proof.
  intros Hin. simpl. rewrite set_humidity_run. unfold in_range.
  assert (E : ((min_humidity <=? humidity)%Z && (humidity <? max_humidity + 1)%Z)
              = true).
  { apply andb_true_iff. split; [apply Z.leb_le | apply Z.ltb_lt]; lia. }
  rewrite E. simpl.
  destruct (fst (vs_set_humidity (smarthumidifier w) humidity)); simpl;
    repeat split; intros; try discriminate; try reflexivity; lia.
Qed.

Lemma set_humidity_follows_vendor_witness :
  (min_humidity <= 30 <= max_humidity)%Z
  /\ fst (@set_humidity obliging_vendor 30 sample_world) = Ok tt
  /\ fst (@set_humidity failing_vendor 30 sample_world)
     = Raise (ValueError "An error occurred while setting humidity.")
  /\ scheduled_updates (snd (@set_humidity failing_vendor 30 sample_world)) = 0.
Proof.
  assert (Hin : (min_humidity <= 30 <= max_humidity)%Z)
    by (unfold min_humidity, max_humidity, _attr_min_humidity,
          _attr_max_humidity, MIN_HUMIDITY, MAX_HUMIDITY; lia).
  split; [exact Hin|].
  destruct (@set_humidity_follows_vendor obliging_vendor 30 sample_world Hin)
    as (Hok & _).
  destruct (@set_humidity_follows_vendor failing_vendor 30 sample_world Hin)
    as (_ & Hfail & Hs & _).
  split; [apply Hok; reflexivity|].
  split; [apply Hfail; reflexivity | exact Hs].
Defined.

(** X8: a [set_mode] that passes validation, in a world whose cache is
    sound, makes exactly one vendor call, [set_humidity_mode] with a vendor
    mode that [_get_ha_mode] translates back to the requested host mode; it
    logs nothing beyond what reading [available_modes] logged, returns
    normally exactly when the vendor reports success, and schedules one
    refresh on success and none on failure. *)
Theorem set_mode_sends_matching_mode (c : ModeConsts) `{VendorLibrary}
    (mode : string) (w w1 : World) (modes : list string) :
  cache_sound c w ->
  available_modes c w = (Ok modes, w1) ->
  In mode modes ->
  exists vs,
    _get_ha_mode c vs = (Some mode, [])
    /\ vendor_calls (snd (set_mode c mode w))
       = (vendor_calls w ++ [CallSetHumidityMode (Some vs)])%list
    /\ warnings (snd (set_mode c mode w)) = warnings w1
    /\ (fst (set_mode c mode w) = Ok tt
        <-> fst (vs_set_humidity_mode (smarthumidifier w) (Some vs)) = true)
    /\ scheduled_updates (snd (set_mode c mode w))
       = scheduled_updates w
         + (if fst (vs_set_humidity_mode (smarthumidifier w) (Some vs))
            then 1 else 0).
Proof.
  intros Hs Ha Hin.
  destruct (available_modes_frame c w) as (modes' & w1' & E & Hd & Hc & Hu & Hk & Hs1).
  rewrite Ha in E. injection E as <- <-.
  specialize (Hs1 Hs). unfold cache_sound in Hs1. rewrite Hk in Hs1.
  destruct (get_Some_keys _ _ (ha_values_are_keys c mode (Hs1 mode Hin))) as [vs Evs].
  exists vs.
  assert (Eback : _get_ha_mode c vs = (Some mode, [])).
  { apply get_In, of_items_In in Evs.
    apply in_map_iff in Evs. destruct Evs as [[vs' ha'] [E Hin']].
    simpl in E. injection E as -> ->.
    assert (G : PyDict.get vs (VS_TO_HA_MODE_MAP c) = Some mode)
      by (apply In_get; [apply of_items_NoDup | exact Hin']).
    unfold _get_ha_mode. now rewrite G. }
  split; [exact Eback|].
  rewrite (set_mode_run c mode w modes w1 Ha).
  apply str_in_In in Hin. rewrite Hin.
  unfold _get_vs_mode. rewrite Evs. simpl.
  rewrite with_warnings_nil, Hd.
  destruct (fst (vs_set_humidity_mode (smarthumidifier w) (Some vs))); simpl;
    rewrite Hc, Hu; repeat split; intros; try discriminate; try reflexivity; lia.
Qed.

Lemma set_mode_sends_matching_mode_witness :
  cache_sound vesync_consts sample_world
  /\ In "normal" ["auto"; "sleep"; "normal"]
  /\ exists vs,
       _get_ha_mode vesync_consts vs = (Some "normal", [])
       /\ vendor_calls (snd (@set_mode vesync_consts obliging_vendor "normal" sample_world))
          = (vendor_calls sample_world ++ [CallSetHumidityMode (Some vs)])%list.
Proof.
  split; [exact I|].
  assert (Hin : In "normal" ["auto"; "sleep"; "normal"]) by (simpl; tauto).
  split; [exact Hin|].
  destruct (@set_mode_sends_matching_mode vesync_consts obliging_vendor "normal"
              sample_world
              (with_cache ["auto"; "sleep"; "normal"]
                 (with_warnings ["Unknown mode 'turbo'"] sample_world))
              ["auto"; "sleep"; "normal"] I eq_refl Hin)
    as (vs & H1 & H2 & _).
  exists vs. split; [exact H1 | exact H2].
Defined.

(** X9: with distinct mode names, on a device that lists the vendor mode
    [VS_MODE_AUTO] but not [VS_MODE_HUMIDITY], a first [set_mode] to the
    host mode [MODE_AUTO] passes validation and asks the vendor for
    [VS_MODE_HUMIDITY], a mode the device does not list. *)
Theorem set_mode_auto_asks_for_humidity (c : ModeConsts) `{VendorLibrary}
    (w : World) (vs_modes : list string) :
  consts_distinct c ->
  cached_available_modes w = None ->
  mist_modes (smarthumidifier w) = Some vs_modes ->
  In (VS_MODE_AUTO c) vs_modes ->
  ~ In (VS_MODE_HUMIDITY c) vs_modes ->
  vendor_calls (snd (set_mode c (MODE_AUTO c) w))
  = (vendor_calls w ++ [CallSetHumidityMode (Some (VS_MODE_HUMIDITY c))])%list
  /\ ~ In (VS_MODE_HUMIDITY c)
         (match mist_modes (smarthumidifier w) with
          | Some l => l
          | None => []
          end).
Proof.
  intros Hd Hc Hm Hauto Hhum. split; [|now rewrite Hm].
  assert (Ea : available_modes c w
               = (Ok (translate_known c vs_modes),
                  with_cache (translate_known c vs_modes)
                    (with_warnings (dropped_warnings c vs_modes) w))).
  { unfold available_modes, bind, get_world. rewrite Hc.
    rewrite available_modes_body_spec, Hm. reflexivity. }
  rewrite (set_mode_run c _ w _ _ Ea).
  assert (Hin : In (MODE_AUTO c) (translate_known c vs_modes)).
  { unfold translate_known. apply in_flat_map. exists (VS_MODE_AUTO c).
    split; [exact Hauto|].
    rewrite (VS_TO_HA_MODE_MAP_distinct c Hd). simpl.
    rewrite String.eqb_refl. now left. }
  apply str_in_In in Hin. rewrite Hin.
  assert (Evs : _get_vs_mode c (MODE_AUTO c) = (Some (VS_MODE_HUMIDITY c), [])).
  { unfold _get_vs_mode. rewrite (HA_TO_VS_MODE_MAP_distinct c Hd). simpl.
    now rewrite String.eqb_refl. }
  rewrite Evs. simpl.
  destruct (fst (vs_set_humidity_mode _ _)); reflexivity.
Qed.

Lemma set_mode_auto_asks_for_humidity_witness :
  consts_distinct vesync_consts
  /\ In (VS_MODE_AUTO vesync_consts) ["auto"; "turbo"; "sleep"; "manual"]
  /\ ~ In (VS_MODE_HUMIDITY vesync_consts) ["auto"; "turbo"; "sleep"; "manual"]
  /\ vendor_calls (snd (@set_mode vesync_consts obliging_vendor "auto" sample_world))
     = [CallSetHumidityMode (Some "humidity")].
Proof.
  assert (H1 : In (VS_MODE_AUTO vesync_consts) ["auto"; "turbo"; "sleep"; "manual"])
    by (simpl; tauto).
  assert (H2 : ~ In (VS_MODE_HUMIDITY vesync_consts)
                 ["auto"; "turbo"; "sleep"; "manual"])
    by (simpl; intuition discriminate).
  split; [exact vesync_consts_distinct|]. split; [exact H1|]. split; [exact H2|].
  exact (proj1 (@set_mode_auto_asks_for_humidity vesync_consts obliging_vendor
                  sample_world _ vesync_consts_distinct eq_refl eq_refl H1 H2)).
Defined.

(** X10: no command of the adapter ever makes more than one vendor call or
    drops a recorded one, and a refresh is never scheduled without a vendor
    call made by the same command. *)
Theorem commands_call_vendor_at_most_once (c : ModeConsts) `{VendorLibrary}
    (humidity : Z) (mode : string) (w : World) :
  let at_most_one (w1 : World) :=
    exists calls,
      vendor_calls w1 = (vendor_calls w ++ calls)%list
      /\ length calls <= 1
      /\ scheduled_updates w <= scheduled_updates w1
         <= scheduled_updates w + length calls in
  at_most_one (snd (set_humidity humidity w))
  /\ at_most_one (snd (set_mode c mode w))
  /\ at_most_one (snd (turn_on w))
  /\ at_most_one (snd (turn_off w)).
Proof.
  simpl. split; [|split; [|split]].
  - rewrite set_humidity_run.
    destruct (in_range _ _ humidity).
    + exists [CallSetHumidity humidity].
      destruct (fst (vs_set_humidity (smarthumidifier w) humidity)); simpl;
        repeat split; lia.
    + exists []. simpl. rewrite app_nil_r. repeat split; lia.
  - destruct (available_modes_frame c w) as (modes & w1 & E & Hd & Hc & Hu & _).
    rewrite (set_mode_run c mode w modes w1 E).
    destruct (str_in mode modes).
    + exists [CallSetHumidityMode (fst (_get_vs_mode c mode))].
      cbv zeta.
      match goal with
      | |- context [fst (vs_set_humidity_mode ?d ?m)] =>
          destruct (fst (vs_set_humidity_mode d m))
      end; simpl; rewrite Hc, Hu; repeat split; lia.
    + exists []. simpl. rewrite app_nil_r, Hc, Hu. repeat split; lia.
  - exists [CallTurnOn]. unfold turn_on, bind, smarthumidifier_turn_on.
    destruct (vs_turn_on (smarthumidifier w)) as [[|] d]; simpl;
      repeat split; lia.
  - exists [CallTurnOff]. unfold turn_off, bind, smarthumidifier_turn_off.
    destruct (vs_turn_off (smarthumidifier w)) as [[|] d]; simpl;
      repeat split; lia.
Qed.

(** X11: [turn_on] and [turn_off] always make their vendor call, return
    normally exactly when the vendor reports success, raise the operation
    error otherwise, and leave the device as the vendor call left it. *)
Theorem turn_on_off_follow_vendor `{VendorLibrary} (w : World) :
  (vendor_calls (snd (turn_on w)) = (vendor_calls w ++ [CallTurnOn])%list
   /\ (fst (turn_on w) = Ok tt <-> fst (vs_turn_on (smarthumidifier w)) = true)
   /\ (fst (vs_turn_on (smarthumidifier w)) = false ->
       fst (turn_on w) = Raise (ValueError "An error occurred while turning on."))
   /\ smarthumidifier (snd (turn_on w)) = snd (vs_turn_on (smarthumidifier w)))
  /\ (vendor_calls (snd (turn_off w)) = (vendor_calls w ++ [CallTurnOff])%list
      /\ (fst (turn_off w) = Ok tt <-> fst (vs_turn_off (smarthumidifier w)) = true)
      /\ (fst (vs_turn_off (smarthumidifier w)) = false ->
          fst (turn_off w) = Raise (ValueError "An error occurred while turning off."))
      /\ smarthumidifier (snd (turn_off w)) = snd (vs_turn_off (smarthumidifier w))).
Proof.
  split.
  - unfold turn_on, bind, smarthumidifier_turn_on.
    destruct (vs_turn_on (smarthumidifier w)) as [[|] d]; simpl;
      repeat split; intros; try discriminate; reflexivity.
  - unfold turn_off, bind, smarthumidifier_turn_off.
    destruct (vs_turn_off (smarthumidifier w)) as [[|] d]; simpl;
      repeat split; intros; try discriminate; reflexivity.
Qed.

(** ** Platform setup and the state properties of the humidifier *)

Lemma init_compatible dev :
  VeSyncHumidifierHA dev
  = if compatible dev
    then Ok {| smarthumidifier := dev;
               cached_available_modes := None;
               vendor_calls := [];
               scheduled_updates := 0;
               warnings := [] |}
    else Raise (Exception
           "This humidifier is not compatible with the current release of CustomVeSync").
Proof. unfold VeSyncHumidifierHA, compatible. now destruct (device_class dev). Qed.

(** X12: the humidifier platform adds its adapters all or none.  When every
    device of the batch is of a compatible class, one fresh adapter per
    device is built, in the order of the batch; as soon as one device is of
    another class the setup raises and no list is handed to the host, the
    compatible devices included. *)
Theorem humidifier_setup_all_or_nothing (devices : list Device) :
  (forallb compatible devices = true ->
   exists adapters,
     HumidifierHA._setup_entities devices = Ok adapters
     /\ map smarthumidifier adapters = devices
     /\ Forall (fun a => cached_available_modes a = None
                         /\ vendor_calls a = []
                         /\ scheduled_updates a = 0
                         /\ warnings a = []) adapters)
  /\ (forallb compatible devices = false ->
      HumidifierHA._setup_entities devices
      = Raise (Exception
          "This humidifier is not compatible with the current release of CustomVeSync")).
Proof.
  induction devices as [|dev rest [IHok IHbad]]; simpl.
  - split; [|discriminate]. intros _. exists []. repeat split. constructor.
  - rewrite init_compatible. destruct (compatible dev); simpl.
    + split.
      * intros Hall. destruct (IHok Hall) as (adapters & E & Hm & Hf).
        rewrite E. eexists. split; [reflexivity|]. simpl. split.
        -- now rewrite Hm.
        -- constructor; [repeat split | exact Hf].
      * intros Hbad. now rewrite (IHbad Hbad).
    + split; [discriminate | reflexivity].
Qed.

Lemma humidifier_setup_all_or_nothing_witness :
  forallb compatible [sample_humidifier; sample_fryer; sample_superior] = false
  /\ HumidifierHA._setup_entities [sample_humidifier; sample_fryer; sample_superior]
     = Raise (Exception
         "This humidifier is not compatible with the current release of CustomVeSync")
  /\ forallb compatible [sample_humidifier; sample_superior] = true
  /\ exists adapters,
       HumidifierHA._setup_entities [sample_humidifier; sample_superior] = Ok adapters
       /\ map smarthumidifier adapters = [sample_humidifier; sample_superior].
Proof.
  split; [reflexivity|].
  split.
  - exact (proj2 (humidifier_setup_all_or_nothing
                    [sample_humidifier; sample_fryer; sample_superior]) eq_refl).
  - split; [reflexivity|].
    destruct (proj1 (humidifier_setup_all_or_nothing
                       [sample_humidifier; sample_superior]) eq_refl)
      as (adapters & E & Hm & _).
    exists adapters. split; [exact E | exact Hm].
Defined.

(** X13: when the [mode] property returns a host mode, it is one of the
    three host modes, nothing was logged and [_get_vs_mode] translates it
    without a warning; when it returns [None], exactly one warning was
    logged; it raises only when the place it reads is missing: [KeyError]
    for the state key [mode] on the 200/300S classes, [AttributeError] for
    the attribute [mode] on the Superior 6000S. *)
Theorem mode_property_outcomes (c : ModeConsts) (w : World) :
  (forall m w1, HumidifierHA.mode c w = (HumidifierHA.Returns (Some m), w1) ->
     w1 = w
     /\ In m [MODE_AUTO c; MODE_NORMAL c; MODE_SLEEP c]
     /\ exists vs, _get_vs_mode c m = (Some vs, []))
  /\ (forall w1, HumidifierHA.mode c w = (HumidifierHA.Returns None, w1) ->
        exists msg, w1 = with_warnings [msg] w)
  /\ (forall e w1, HumidifierHA.mode c w = (HumidifierHA.Raises e, w1) ->
        e = KeyError "mode" /\ w1 = w
        /\ HumidifierHA.is_superior (smarthumidifier w) = false
        /\ PyDict.get "mode" (details (smarthumidifier w)) = None)
  /\ (forall n w1, HumidifierHA.mode c w = (HumidifierHA.RaisesAttributeError n, w1) ->
        n = "mode" /\ w1 = w
        /\ HumidifierHA.is_superior (smarthumidifier w) = true
        /\ PyDict.get "mode" (attrs (smarthumidifier w)) = None).
Proof.
  assert (Hval : forall v m ws,
             HumidifierHA.get_ha_mode_of c v = (Some m, ws) ->
             ws = [] /\ In m (PyDict.values (VS_TO_HA_MODE_MAP c))).
  { intros v m ws. destruct v as [|b|z|s]; simpl; try discriminate.
    unfold _get_ha_mode.
    destruct (PyDict.get s (VS_TO_HA_MODE_MAP c)) as [ha|] eqn:E; [|discriminate].
    intros G. injection G as <- <-. split; [reflexivity|].
    apply get_In in E. unfold PyDict.values. now apply (in_map snd) in E. }
  assert (Hnone : forall v ws,
             HumidifierHA.get_ha_mode_of c v = (None, ws) -> exists msg, ws = [msg]).
  { intros v ws. destruct v as [|b|z|s]; simpl;
      try (intros G; injection G as <-; eexists; reflexivity).
    unfold _get_ha_mode.
    destruct (PyDict.get s (VS_TO_HA_MODE_MAP c)); [discriminate|].
    intros G; injection G as <-; eexists; reflexivity. }
  unfold HumidifierHA.mode, HumidifierHA.attribute, HumidifierHA.item.
  destruct (HumidifierHA.is_superior (smarthumidifier w)).
  - destruct (PyDict.get "mode" (attrs (smarthumidifier w))) as [v|] eqn:Ev;
      (split; [|split; [|split]]); try (intros; discriminate).
    + intros m w1 G.
      destruct (HumidifierHA.get_ha_mode_of c v) as [[m'|] ws] eqn:Eg;
        simpl in G; [|discriminate].
      injection G as -> <-. destruct (Hval _ _ _ Eg) as [-> Hin].
      split; [apply with_warnings_nil|]. split.
      * unfold PyDict.values in Hin. apply in_map_iff in Hin.
        destruct Hin as [[k v'] [E Hin]]. simpl in E. subst v'.
        apply of_items_In in Hin. simpl in Hin.
        destruct Hin as [E|[E|[E|[E|[]]]]]; injection E as _ <-; simpl; tauto.
      * apply ha_values_are_keys, get_Some_keys in Hin.
        destruct Hin as [vs E]. exists vs. unfold _get_vs_mode. now rewrite E.
    + intros w1 G.
      destruct (HumidifierHA.get_ha_mode_of c v) as [[m'|] ws] eqn:Eg;
        simpl in G; [discriminate|].
      injection G as <-. destruct (Hnone _ _ Eg) as [msg ->]. now exists msg.
    + intros n w1 G. injection G as <- <-. auto.
  - destruct (PyDict.get "mode" (details (smarthumidifier w))) as [v|] eqn:Ev;
      (split; [|split; [|split]]); try (intros; discriminate).
    + intros m w1 G.
      destruct (HumidifierHA.get_ha_mode_of c v) as [[m'|] ws] eqn:Eg;
        simpl in G; [|discriminate].
      injection G as -> <-. destruct (Hval _ _ _ Eg) as [-> Hin].
      split; [apply with_warnings_nil|]. split.
      * unfold PyDict.values in Hin. apply in_map_iff in Hin.
        destruct Hin as [[k v'] [E Hin]]. simpl in E. subst v'.
        apply of_items_In in Hin. simpl in Hin.
        destruct Hin as [E|[E|[E|[E|[]]]]]; injection E as _ <-; simpl; tauto.
      * apply ha_values_are_keys, get_Some_keys in Hin.
        destruct Hin as [vs E]. exists vs. unfold _get_vs_mode. now rewrite E.
    + intros w1 G.
      destruct (HumidifierHA.get_ha_mode_of c v) as [[m'|] ws] eqn:Eg;
        simpl in G; [discriminate|].
      injection G as <-. destruct (Hnone _ _ Eg) as [msg ->]. now exists msg.
    + intros e w1 G. injection G as <- <-. auto.
Qed.

Example mode_property_concrete :
  HumidifierHA.mode vesync_consts sample_world
  = (HumidifierHA.Returns (Some "normal"), sample_world)
  /\ HumidifierHA.mode vesync_consts superior_world
     = (HumidifierHA.Returns (Some "auto"), superior_world)
  /\ HumidifierHA.target_humidity sample_world = HumidifierHA.Returns (VInt 50)
  /\ HumidifierHA.target_humidity superior_world = HumidifierHA.Returns (VInt 55)
  /\ HumidifierHA.is_on sample_world = HumidifierHA.Returns (VBool true)
  /\ HumidifierHA.is_on superior_world = HumidifierHA.Returns (VBool true).
Proof. repeat split; reflexivity. Qed.

(** X14: [target_humidity], [is_on] and [mode] read one place each, chosen
    by the exact class of the device: on the Superior 6000S the state key
    [target_humidity] and the attributes [device_status] and [mode]; on the
    other classes the configuration key [auto_target_humidity], the
    attribute [enabled] and the state key [mode].  Two adapters of the same
    variant that agree on these three places agree on the three properties,
    whatever else differs; and on the Superior 6000S [is_on] is a boolean
    whenever it returns. *)
Theorem state_properties_by_variant (c : ModeConsts) (w1 w2 : World) :
  let d1 := smarthumidifier w1 in
  let d2 := smarthumidifier w2 in
  HumidifierHA.is_superior d1 = HumidifierHA.is_superior d2 ->
  (if HumidifierHA.is_superior d1
   then PyDict.get "target_humidity" (details d1)
        = PyDict.get "target_humidity" (details d2)
        /\ PyDict.get "device_status" (attrs d1)
           = PyDict.get "device_status" (attrs d2)
        /\ PyDict.get "mode" (attrs d1) = PyDict.get "mode" (attrs d2)
   else PyDict.get "auto_target_humidity" (config d1)
        = PyDict.get "auto_target_humidity" (config d2)
        /\ PyDict.get "enabled" (attrs d1) = PyDict.get "enabled" (attrs d2)
        /\ PyDict.get "mode" (details d1) = PyDict.get "mode" (details d2)) ->
  HumidifierHA.target_humidity w1 = HumidifierHA.target_humidity w2
  /\ HumidifierHA.is_on w1 = HumidifierHA.is_on w2
  /\ fst (HumidifierHA.mode c w1) = fst (HumidifierHA.mode c w2)
  /\ (HumidifierHA.is_superior d1 = true ->
      forall v, HumidifierHA.is_on w1 = HumidifierHA.Returns v ->
                exists b, v = VBool b).
Proof.
  simpl. intros Hs Hagree.
  unfold HumidifierHA.target_humidity, HumidifierHA.is_on, HumidifierHA.mode,
    HumidifierHA.attribute, HumidifierHA.item.
  rewrite <- Hs.
  destruct (HumidifierHA.is_superior (smarthumidifier w1));
    destruct Hagree as (E1 & E2 & E3); rewrite <- E1, <- E2, <- E3.
  - repeat split.
    + destruct (PyDict.get "mode" (attrs (smarthumidifier w1))); reflexivity.
    + intros _ v.
      destruct (PyDict.get "device_status" (attrs (smarthumidifier w1)));
        intros G; [|discriminate].
      injection G as <-. eexists; reflexivity.
  - repeat split.
    + destruct (PyDict.get "mode" (details (smarthumidifier w1))); reflexivity.
    + discriminate.
Qed.

Lemma state_properties_by_variant_witness :
  HumidifierHA.target_humidity superior_world
  = HumidifierHA.target_humidity
      (with_device
         {| device_class := VeSyncSuperior6000S;
            uuid := "uuid-5";
            attrs := [("device_status", VStr "on"); ("mode", VStr "humidity");
                      ("enabled", VBool false)];
            details := [("mode", VStr "manual"); ("target_humidity", VInt 55)];
            config := [("auto_target_humidity", VInt 40)];
            mist_modes := None |}
         superior_world)
  /\ HumidifierHA.is_on superior_world = HumidifierHA.Returns (VBool true).
Proof.
  destruct (state_properties_by_variant vesync_consts superior_world
              (with_device
                 {| device_class := VeSyncSuperior6000S;
                    uuid := "uuid-5";
                    attrs := [("device_status", VStr "on"); ("mode", VStr "humidity");
                              ("enabled", VBool false)];
                    details := [("mode", VStr "manual"); ("target_humidity", VInt 55)];
                    config := [("auto_target_humidity", VInt 40)];
                    mist_modes := None |}
                 superior_world)
              eq_refl (conj eq_refl (conj eq_refl eq_refl)))
    as (Ht & _ & _ & _).
  split; [exact Ht | reflexivity].
Defined.

(** ** More on the state attributes *)

Lemma set_new_key {V} (d : dict V) k v :
  ~ In k (PyDict.keys d) -> PyDict.set k v d = (d ++ [(k, v)])%list.
Proof.
  induction d as [|[k' v'] r IH]; simpl; intros H; [reflexivity|].
  destruct (String.eqb_spec k k') as [->|Hne].
  - exfalso. apply H. now left.
  - rewrite IH; [reflexivity|]. intros Hin. apply H. now right.
Qed.

Lemma fold_set_fresh {V} (kvs : list (string * V)) (acc : dict V) :
  NoDup (PyDict.keys acc ++ map fst kvs) ->
  fold_left (fun d kv => PyDict.set (fst kv) (snd kv) d) kvs acc
  = (acc ++ kvs)%list.
Proof.
  revert acc. induction kvs as [|[k v] r IH]; intros acc H; simpl.
  - now rewrite app_nil_r.
  - rewrite set_new_key.
    + rewrite IH.
      * now rewrite <- app_assoc.
      * unfold PyDict.keys in *. rewrite map_app. simpl.
        rewrite <- app_assoc. exact H.
    + simpl in H. apply NoDup_remove_2 in H.
      intros Hin. apply H. apply in_or_app. now left.
Qed.

(** X15: when the host's [state_attributes] returns and no two keys of the
    state mapping are emitted under the same key, [extra_state_attributes]
    returns the state mapping with every key re-keyed, in the same order and
    with the same values. *)
Theorem extra_state_attributes_without_collision (T : dict string)
    (state_attributes : World -> HumidifierHA.Outcome (dict PyVal) * World)
    (w : World) (reserved : dict PyVal) :
  observes state_attributes ->
  fst (state_attributes w) = HumidifierHA.Returns reserved ->
  NoDup (map (fun kv => emitted_key T reserved (fst kv))
           (PyDict.items (details (smarthumidifier w)))) ->
  fst (extra_state_attributes T state_attributes w)
  = HumidifierHA.Returns
      (map (fun kv => (emitted_key T reserved (fst kv), snd kv))
         (PyDict.items (details (smarthumidifier w)))).
Proof.
  intros Hobs Hres Hnd.
  destruct (loop_returns T state_attributes Hobs w reserved Hres
              (PyDict.items (details (smarthumidifier w))) PyDict.empty [])
    as [ws Eloop].
  rewrite with_warnings_nil in Eloop.
  unfold extra_state_attributes. rewrite Eloop. simpl. f_equal.
  rewrite <- (fold_left_over_map
                (fun d (kv : string * PyVal) => PyDict.set (fst kv) (snd kv) d)
                (fun kv : string * PyVal =>
                   (emitted_key T reserved (fst kv), snd kv))).
  rewrite fold_set_fresh; [reflexivity|].
  simpl. rewrite map_map. simpl. exact Hnd.
Qed.

Lemma extra_state_attributes_without_collision_witness :
  observes (HumidifierEntity_state_attributes vesync_consts)
  /\ fst (HumidifierEntity_state_attributes vesync_consts sample_world)
     = HumidifierHA.Returns [("humidity", VInt 50); ("mode", VStr "normal")]
  /\ fst (extra_state_attributes sample_rename_table
            (HumidifierEntity_state_attributes vesync_consts) sample_world)
     = HumidifierHA.Returns
         [("current_humidity", VInt 45); ("vs_mode", VStr "manual");
          ("water_lacks", VBool false)].
Proof.
  pose proof (HumidifierEntity_state_attributes_observes vesync_consts) as Hobs.
  split; [exact Hobs|]. split; [reflexivity|].
  apply (extra_state_attributes_without_collision sample_rename_table
           (HumidifierEntity_state_attributes vesync_consts) sample_world
           [("humidity", VInt 50); ("mode", VStr "normal")] Hobs eq_refl).
  simpl. repeat constructor; simpl; intuition discriminate.
Defined.

Lemma fold_set_size {A V} (f : A -> string * V) (xs : list A) (acc : dict V) :
  NoDup (PyDict.keys acc) ->
  length (fold_left (fun d x => PyDict.set (fst (f x)) (snd (f x)) d) xs acc)
  = length acc + length xs ->
  NoDup (PyDict.keys acc ++ map (fun x => fst (f x)) xs).
Proof.
  assert (Hle : forall (ys : list A) (a : dict V),
             length (fold_left (fun d x => PyDict.set (fst (f x)) (snd (f x)) d) ys a)
             <= length a + length ys).
  { induction ys as [|y ys IH]; intros a; simpl; [lia|].
    eapply Nat.le_trans; [apply IH|]. rewrite set_length.
    destruct (PyDict.contains (fst (f y)) a); lia. }
  revert acc. induction xs as [|x xs IH]; intros acc Hacc; cbn [fold_left length map].
  - intros _. now rewrite app_nil_r.
  - intros E.
    pose proof (Hle xs (PyDict.set (fst (f x)) (snd (f x)) acc)) as Hle1.
    rewrite set_length in Hle1.
    destruct (PyDict.contains (fst (f x)) acc) eqn:Ec; [exfalso; lia|].
    assert (Hn : ~ In (fst (f x)) (PyDict.keys acc)).
    { intros Hin. apply contains_keys in Hin. congruence. }
    assert (Hnd : NoDup
                    (PyDict.keys (PyDict.set (fst (f x)) (snd (f x)) acc)
                     ++ map (fun x => fst (f x)) xs)).
    { apply IH; [now apply set_NoDup_keys|].
      rewrite set_length, Ec. lia. }
    rewrite (set_new_key acc _ (snd (f x)) Hn) in Hnd.
    unfold PyDict.keys in Hnd. rewrite map_app, <- app_assoc in Hnd.
    exact Hnd.
Qed.

(** Whatever the host property does, a result of the loop has no repeated
    key and grows by at most one entry per pair. *)
Lemma loop_size (VS_TO_HA_ATTRIBUTES : dict string)
    (state_attributes : World -> HumidifierHA.Outcome (dict PyVal) * World)
    todo attr w out w1 :
  extra_state_attributes_loop VS_TO_HA_ATTRIBUTES state_attributes todo attr w
  = (HumidifierHA.Returns out, w1) ->
  NoDup (PyDict.keys attr) ->
  NoDup (PyDict.keys out) /\ length out <= length attr + length todo.
Proof.
  revert attr w. induction todo as [|[k v] rest IH]; intros attr w E Hnd; simpl in E.
  - injection E as <- <-. split; [exact Hnd | simpl; lia].
  - assert (Hstep : forall k' w',
               extra_state_attributes_loop VS_TO_HA_ATTRIBUTES state_attributes
                 rest (PyDict.set k' v attr) w' = (HumidifierHA.Returns out, w1) ->
               NoDup (PyDict.keys out)
               /\ length out <= length attr + length ((k, v) :: rest)).
    { intros k' w' E'.
      destruct (IH _ _ E' (set_NoDup_keys attr k' v Hnd)) as [H1 H2].
      split; [exact H1|]. rewrite set_length in H2. simpl.
      destruct (PyDict.contains k' attr); lia. }
    destruct (PyDict.get k VS_TO_HA_ATTRIBUTES) as [renamed|]; [now apply Hstep in E|].
    destruct (state_attributes w) as [[reserved|e|n] w']; try discriminate.
    destruct (PyDict.contains k reserved); now apply Hstep in E.
Qed.

(** X16: whatever the host's [state_attributes] does, a mapping
    [extra_state_attributes] returns never repeats a key and never has more
    entries than the state mapping; when the host property returns the
    reserved names, the result has as many entries as the state mapping
    only if no two state keys are emitted under the same key. *)
Theorem extra_state_attributes_size (T : dict string)
    (state_attributes : World -> HumidifierHA.Outcome (dict PyVal) * World)
    (w w1 : World) (out : dict PyVal) :
  extra_state_attributes T state_attributes w = (HumidifierHA.Returns out, w1) ->
  let state := PyDict.items (details (smarthumidifier w)) in
  NoDup (PyDict.keys out)
  /\ length out <= length state
  /\ (observes state_attributes ->
      forall reserved,
        fst (state_attributes w) = HumidifierHA.Returns reserved ->
        length out = length state ->
        NoDup (map (fun kv => emitted_key T reserved (fst kv)) state)).
Proof.
  intros E state.
  destruct (loop_size T state_attributes state PyDict.empty w out w1 E
              (NoDup_nil _)) as [Hnd Hle].
  split; [exact Hnd|]. split; [exact Hle|].
  intros Hobs reserved Hres Hlen.
  destruct (loop_returns T state_attributes Hobs w reserved Hres state
              PyDict.empty []) as [ws Eloop].
  rewrite with_warnings_nil in Eloop.
  unfold extra_state_attributes in E. fold state in E.
  rewrite Eloop in E. injection E as E _.
  rewrite <- E in Hlen.
  apply (fold_set_size
           (fun kv : string * PyVal => (emitted_key T reserved (fst kv), snd kv))
           state PyDict.empty (NoDup_nil _) Hlen).
Qed.

Lemma extra_state_attributes_size_witness :
  extra_state_attributes sample_rename_table
    (HumidifierEntity_state_attributes vesync_consts) sample_world
  = (HumidifierHA.Returns
       [("current_humidity", VInt 45); ("vs_mode", VStr "manual");
        ("water_lacks", VBool false)],
     sample_world)
  /\ NoDup (PyDict.keys
              [("current_humidity", VInt 45); ("vs_mode", VStr "manual");
               ("water_lacks", VBool false)])
  /\ 3 <= length (PyDict.items (details (smarthumidifier sample_world))).
Proof.
  split; [reflexivity|].
  destruct (extra_state_attributes_size sample_rename_table
              (HumidifierEntity_state_attributes vesync_consts)
              sample_world sample_world _ eq_refl) as (Hnd & Hle & _).
  split; [exact Hnd | exact Hle].
Defined.

(** ** More on the binary-sensor adapters *)

(** X17: discovery treats the devices of a batch one by one and in order:
    the adapters of a batch made of two parts are those of the first part
    followed by those of the second, and every adapter wraps a device of the
    batch. *)
Theorem discovery_is_per_device {Coordinator : Type} (T : dict (list string))
    (batch1 batch2 : list Device) (coordinator : Coordinator) :
  _setup_entities T (batch1 ++ batch2) coordinator
  = (_setup_entities T batch1 coordinator
     ++ _setup_entities T batch2 coordinator)%list
  /\ (forall e, In e (_setup_entities T batch1 coordinator) ->
        In (sensor_device e) batch1).
Proof.
  split.
  - rewrite !_setup_entities_flat_map. apply flat_map_app.
  - intros e. rewrite _setup_entities_flat_map, in_flat_map.
    intros [d [Hd He]]. apply in_device_entities in He.
    destruct He as [[s (-> & _ & _)]|[[-> _]|[[-> _]|[-> _]]]]; exact Hd.
Qed.

(** X18: a device contributes at most one adapter per entry of the fryer
    table plus three, so a batch of [n] devices gives at most
    [n * (size of the table + 3)] adapters; devices with no capability at
    all give none. *)
Theorem discovery_size {Coordinator : Type} (T : dict (list string))
    (devices : list Device) (coordinator : Coordinator) :
  length (_setup_entities T devices coordinator)
  <= length devices * (length T + 3)
  /\ ((forall dev, In dev devices ->
         hasattr dev "fryer_status" = false
         /\ ~ In "water_lacks" (PyDict.keys (details dev))
         /\ ~ In "water_tank_lifted" (PyDict.keys (details dev))
         /\ ~ In "filter_open_state" (PyDict.keys (details dev))) ->
      _setup_entities T devices coordinator = []).
Proof.
  rewrite _setup_entities_flat_map. split.
  - induction devices as [|d r IH]; simpl; [lia|].
    rewrite length_app.
    assert (H : length (device_entities T coordinator d) <= length T + 3).
    { unfold device_entities. rewrite !length_app.
      destruct (hasattr d "fryer_status");
        destruct (PyDict.contains "water_lacks" (details d));
        destruct (PyDict.contains "water_tank_lifted" (details d));
        destruct (PyDict.contains "filter_open_state" (details d));
        simpl; unfold PyDict.values; rewrite ?length_map; lia. }
    lia.
  - intros Hnone. induction devices as [|d r IH]; simpl; [reflexivity|].
    rewrite IH by (intros dev Hd; apply Hnone; now right).
    destruct (Hnone d (or_introl eq_refl)) as (Hf & H1 & H2 & H3).
    rewrite <- contains_keys in H1, H2, H3.
    apply not_true_is_false in H1, H2, H3.
    unfold device_entities. now rewrite Hf, H1, H2, H3.
Qed.

Lemma discovery_size_witness :
  (forall dev, In dev [sample_superior] ->
     hasattr dev "fryer_status" = false
     /\ ~ In "water_lacks" (PyDict.keys (details dev))
     /\ ~ In "water_tank_lifted" (PyDict.keys (details dev))
     /\ ~ In "filter_open_state" (PyDict.keys (details dev)))
  /\ _setup_entities sample_fryer_table [sample_superior] tt = [].
Proof.
  assert (H : forall dev, In dev [sample_superior] ->
                hasattr dev "fryer_status" = false
                /\ ~ In "water_lacks" (PyDict.keys (details dev))
                /\ ~ In "water_tank_lifted" (PyDict.keys (details dev))
                /\ ~ In "filter_open_state" (PyDict.keys (details dev))).
  { intros dev [<-|[]]. simpl. intuition discriminate. }
  split; [exact H|].
  exact (proj2 (discovery_size sample_fryer_table [sample_superior] tt) H).
Defined.

(** X19: the adapters a discovery builds can be read without an exception,
    at discovery time: for every adapter of the three humidifier kinds
    [unique_id], [name] and [is_on] return, because the state key [is_on]
    reads is the one the discovery tested; a fryer adapter returns on all of
    [unique_id], [name], [icon] and [is_on] when its table entry has the
    three elements the adapter indexes. *)
Theorem discovered_adapters_read {Coordinator : Type} (T : dict (list string))
    (base_unique_id base_name : Device -> string)
    (devices : list Device) (coordinator : Coordinator)
    (e : BinarySensor Coordinator) :
  In e (_setup_entities T devices coordinator) ->
  match e with
  | VeSyncairfryerSensor _ _ stype =>
      3 <= length stype ->
      (exists u, unique_id base_unique_id e = Ok u)
      /\ (exists n, name base_name e = Ok n)
      /\ (exists i, icon stype = Ok i)
      /\ (exists v, is_on e = Ok v)
  | _ =>
      (exists u, unique_id base_unique_id e = Ok u)
      /\ (exists n, name base_name e = Ok n)
      /\ (exists v, is_on e = Ok v)
  end.
Proof.
  rewrite _setup_entities_flat_map, in_flat_map.
  intros [d [Hd He]]. apply in_device_entities in He.
  destruct He as [[s (-> & _ & _)]|[[-> Hc]|[[-> Hc]|[-> Hc]]]].
  - intros Hlen. destruct s as [|a [|b [|i r]]]; simpl in Hlen; try lia.
    simpl. unfold icon, index. simpl.
    repeat split; eexists; reflexivity.
  - simpl. unfold subscript, PyDict.contains in *.
    destruct (PyDict.get "water_lacks" (details d)); [|discriminate].
    repeat split; eexists; reflexivity.
  - simpl. unfold subscript, PyDict.contains in *.
    destruct (PyDict.get "water_tank_lifted" (details d)); [|discriminate].
    repeat split; eexists; reflexivity.
  - simpl. unfold subscript, PyDict.contains in *.
    destruct (PyDict.get "filter_open_state" (details d)); [|discriminate].
    repeat split; eexists; reflexivity.
Qed.

Lemma discovered_adapters_read_witness :
  In (VeSyncOutOfWaterSensor dry_humidifier tt)
     (_setup_entities sample_fryer_table [dry_humidifier; sample_fryer] tt)
  /\ (exists u, unique_id sample_base_unique_id
                  (VeSyncOutOfWaterSensor dry_humidifier tt) = Ok u)
  /\ (exists n, name uuid (VeSyncOutOfWaterSensor dry_humidifier tt) = Ok n)
  /\ (exists v, is_on (VeSyncOutOfWaterSensor dry_humidifier tt) = Ok v).
Proof.
  assert (Hin : In (VeSyncOutOfWaterSensor dry_humidifier tt)
                  (_setup_entities sample_fryer_table
                     [dry_humidifier; sample_fryer] tt))
    by (simpl; tauto).
  split; [exact Hin|].
  exact (discovered_adapters_read sample_fryer_table sample_base_unique_id uuid
           [dry_humidifier; sample_fryer] tt
           (VeSyncOutOfWaterSensor dry_humidifier tt) Hin).
Defined.

(** A fryer adapter whose table entry is too short raises [IndexError]. *)
Example short_fryer_entry :
  unique_id sample_base_unique_id (VeSyncairfryerSensor sample_fryer tt [])
  = Raise IndexError
  /\ name uuid (VeSyncairfryerSensor sample_fryer tt ["is_heating"]) = Raise IndexError
  /\ is_on (VeSyncairfryerSensor sample_fryer tt ["is_cooking"]) = Ok (VBool false).
Proof. repeat split; reflexivity. Qed.

(** *** Identifiers do not collide *)

Lemma str_length_append (a b : string) :
  String.length (a ++ b) = String.length a + String.length b.
Proof. induction a as [|x a IH]; simpl; [reflexivity | now rewrite IH]. Qed.

Lemma append_cancel_l (s a b : string) : (s ++ a = s ++ b)%string -> a = b.
Proof.
  induction s as [|x s IH]; simpl; intros E; [exact E|].
  injection E as E. now apply IH.
Qed.

Lemma append_cancel_r (a b s : string) : (a ++ s = b ++ s)%string -> a = b.
Proof.
  intros E.
  assert (Hlen : String.length a = String.length b).
  { apply (f_equal String.length) in E. rewrite !str_length_append in E. lia. }
  revert b E Hlen. induction a as [|x a IH]; intros [|y b] E Hlen;
    simpl in Hlen; try discriminate; [reflexivity|].
  simpl in E. injection E as -> E. f_equal. apply IH; [exact E | lia].
Qed.

Lemma last_char_append (a s : string) :
  s <> EmptyString -> last_char (a ++ s) = last_char s.
Proof.
  intros Hs. induction a as [|x a IH]; simpl; [reflexivity|].
  destruct (a ++ s)%string eqn:E; [|exact IH].
  destruct a; simpl in E; [contradiction | discriminate].
Qed.

(** X20: the identifiers of the humidifier sensors do not collide.  Two
    adapters among the out-of-water, tank-lifted and filter-open sensors
    have the same [unique_id] only if they are of the same kind and their
    devices have the same base identifier; and two fryer adapters on
    devices with the same base identifier have the same [unique_id] exactly
    when their table entries start with the same string. *)
Theorem unique_id_injective {Coordinator : Type}
    (base_unique_id : Device -> string) (e1 e2 : BinarySensor Coordinator) :
  (forall stype, sensor_kind e1 <> KindAirfryer stype) ->
  (forall stype, sensor_kind e2 <> KindAirfryer stype) ->
  (unique_id base_unique_id e1 = unique_id base_unique_id e2 ->
   sensor_kind e1 = sensor_kind e2
   /\ base_unique_id (sensor_device e1) = base_unique_id (sensor_device e2))
  /\ (forall d1 d2 (c1 c2 : Coordinator) a r a' r',
        base_unique_id d1 = base_unique_id d2 ->
        (unique_id base_unique_id (VeSyncairfryerSensor d1 c1 (a :: r))
         = unique_id base_unique_id (VeSyncairfryerSensor d2 c2 (a' :: r'))
         <-> a = a')).
Proof.
  intros H1 H2. split.
  - destruct e1 as [d1 c1 s1|d1 c1|d1 c1|d1 c1];
      [exfalso; now apply (H1 s1)| | |];
      (destruct e2 as [d2 c2 s2|d2 c2|d2 c2|d2 c2];
       [exfalso; now apply (H2 s2)| | |]);
      simpl; intros E; injection E as E;
      try (apply append_cancel_r in E; now split);
      exfalso; apply (f_equal last_char) in E;
      rewrite !last_char_append in E by discriminate;
      simpl in E; discriminate E.
  - intros d1 d2 c1 c2 a r a' r' Hb. simpl. rewrite Hb. split.
    + intros E. injection E as E. now apply append_cancel_l in E.
    + now intros ->.
Qed.

Lemma unique_id_injective_witness :
  (forall stype,
      sensor_kind (VeSyncOutOfWaterSensor sample_humidifier tt) <> KindAirfryer stype)
  /\ (forall stype,
         sensor_kind (VeSyncWaterTankLiftedSensor dry_humidifier tt)
         <> KindAirfryer stype)
  /\ unique_id sample_base_unique_id (VeSyncOutOfWaterSensor sample_humidifier tt)
     <> unique_id sample_base_unique_id (VeSyncWaterTankLiftedSensor dry_humidifier tt).
Proof.
  assert (H1 : forall stype,
             sensor_kind (VeSyncOutOfWaterSensor sample_humidifier tt)
             <> KindAirfryer stype) by (intros stype; discriminate).
  assert (H2 : forall stype,
             sensor_kind (VeSyncWaterTankLiftedSensor dry_humidifier tt)
             <> KindAirfryer stype) by (intros stype; discriminate).
  split; [exact H1|]. split; [exact H2|].
  intros E.
  destruct (proj1 (unique_id_injective sample_base_unique_id
                     (VeSyncOutOfWaterSensor sample_humidifier tt)
                     (VeSyncWaterTankLiftedSensor dry_humidifier tt) H1 H2) E)
    as [Hk _].
  discriminate Hk.
Defined.

(** ** An adapter over its lifetime *)
Section Lifetime.
Variable c : ModeConsts.
Context {vendor : VendorLibrary}.

Lemma in_range_bounds humidity :
  in_range min_humidity (max_humidity + 1) humidity = true ->
  (30 <= humidity <= 80)%Z.
Proof.
  unfold in_range, min_humidity, max_humidity, _attr_min_humidity,
    _attr_max_humidity, MIN_HUMIDITY, MAX_HUMIDITY.
  intros H. apply andb_true_iff in H. destruct H as [H1 H2].
  apply Z.leb_le in H1. apply Z.ltb_lt in H2. lia.
Qed.

Lemma run_command_invariant cmd w :
  adapter_invariant c w ->
  adapter_invariant c (snd (run_command c cmd w))
  /\ length (vendor_calls (snd (run_command c cmd w)))
     <= S (length (vendor_calls w)).
Proof.
  intros (Hs & Hcalls & Hupd). unfold adapter_invariant.
  destruct cmd as [humidity|mode| |]; simpl.
  - rewrite set_humidity_run.
    destruct (in_range min_humidity (max_humidity + 1) humidity) eqn:Er.
    + apply in_range_bounds in Er.
      assert (Hc' : Forall validated_call
                      (vendor_calls w ++ [CallSetHumidity humidity])).
      { apply Forall_app. split; [exact Hcalls|]. constructor; [exact Er|constructor]. }
      destruct (fst (vs_set_humidity (smarthumidifier w) humidity)); simpl;
        (split; [split; [exact Hs | split; [exact Hc'|]]|]);
        rewrite length_app; simpl; lia.
    + simpl. split; [split; [exact Hs | split; [exact Hcalls | exact Hupd]] | lia].
  - destruct (available_modes_frame c w) as (modes & w1 & E & Hd & Hc & Hu & Hk & Hs1).
    specialize (Hs1 Hs).
    rewrite (set_mode_run c mode w modes w1 E).
    destruct (str_in mode modes) eqn:Ein.
    + apply str_in_In in Ein.
      assert (Hvs : exists vs, _get_vs_mode c mode = (Some vs, [])).
      { unfold cache_sound in Hs1. rewrite Hk in Hs1.
        apply Hs1, ha_values_are_keys, get_Some_keys in Ein.
        destruct Ein as [vs Evs]. exists vs. unfold _get_vs_mode. now rewrite Evs. }
      destruct Hvs as [vs Evs]. rewrite Evs. cbv zeta. simpl fst. simpl snd.
      rewrite with_warnings_nil.
      assert (Hc' : Forall validated_call
                      (vendor_calls w1 ++ [CallSetHumidityMode (Some vs)])).
      { rewrite Hc. apply Forall_app. split; [exact Hcalls|].
        constructor; [discriminate | constructor]. }
      destruct (fst (vs_set_humidity_mode (smarthumidifier w1) (Some vs))); simpl;
        (split; [split; [exact Hs1 | split; [exact Hc'|]]|]);
        rewrite length_app, Hc, ?Hu; simpl; lia.
    + simpl. rewrite Hc, Hu.
      split; [split; [exact Hs1 | split; [exact Hcalls | exact Hupd]] | lia].
  - unfold turn_on, bind, smarthumidifier_turn_on.
    destruct (vs_turn_on (smarthumidifier w)) as [[|] d]; simpl;
      (split; [split; [exact Hs | split]|]);
      try (apply Forall_app; split; [exact Hcalls | repeat constructor]);
      rewrite length_app; simpl; lia.
  - unfold turn_off, bind, smarthumidifier_turn_off.
    destruct (vs_turn_off (smarthumidifier w)) as [[|] d]; simpl;
      (split; [split; [exact Hs | split]|]);
      try (apply Forall_app; split; [exact Hcalls | repeat constructor]);
      rewrite length_app; simpl; lia.
Qed.

Lemma run_commands_invariant cmds w :
  adapter_invariant c w ->
  adapter_invariant c (run_commands c cmds w)
  /\ length (vendor_calls (run_commands c cmds w))
     <= length (vendor_calls w) + length cmds.
Proof.
  unfold run_commands. revert w.
  induction cmds as [|cmd cmds IH]; intros w Hinv; simpl.
  - split; [exact Hinv | lia].
  - destruct (run_command_invariant cmd w Hinv) as [Hinv1 Hlen1].
    destruct (IH _ Hinv1) as [Hinv2 Hlen2]. split; [exact Hinv2 | lia].
Qed.
End Lifetime.

(** X21: over the whole life of an adapter, from [__init__] through any
    sequence of commands (failed ones included), the vendor library is only
    ever asked for a humidity from 30 to 80 and for a mode that is not
    null; there are never more vendor calls than commands, nor more
    scheduled refreshes than vendor calls. *)
Theorem adapter_lifetime_calls (c : ModeConsts) `{VendorLibrary}
    (humidifier : Device) (w0 : World) (cmds : list Command) :
  VeSyncHumidifierHA humidifier = Ok w0 ->
  let w := run_commands c cmds w0 in
  Forall validated_call (vendor_calls w)
  /\ scheduled_updates w <= length (vendor_calls w) <= length cmds
  /\ cache_sound c w.
Proof.
  intros Hinit. simpl.
  assert (Hinv0 : adapter_invariant c w0).
  { split; [exact (init_cache_sound c humidifier w0 Hinit)|].
    unfold VeSyncHumidifierHA in Hinit.
    destruct (device_class humidifier); try discriminate;
      injection Hinit as <-; simpl; split; [constructor | lia | constructor | lia]. }
  assert (Hlen0 : length (vendor_calls w0) = 0).
  { unfold VeSyncHumidifierHA in Hinit.
    destruct (device_class humidifier); try discriminate;
      injection Hinit as <-; reflexivity. }
  destruct (run_commands_invariant c cmds w0 Hinv0) as [(Hs & Hc & Hu) Hlen].
  repeat split; try assumption. lia.
Qed.

Lemma adapter_lifetime_calls_witness :
  VeSyncHumidifierHA sample_humidifier = Ok sample_world
  /\ vendor_calls
       (@run_commands vesync_consts obliging_vendor
          [CmdSetHumidity 29; CmdSetMode "auto"; CmdSetMode "manual"; CmdTurnOff;
           CmdSetHumidity 80]
          sample_world)
     = [CallSetHumidityMode (Some "humidity"); CallTurnOff; CallSetHumidity 80]
  /\ Forall validated_call
       (vendor_calls
          (@run_commands vesync_consts obliging_vendor
             [CmdSetHumidity 29; CmdSetMode "auto"; CmdSetMode "manual"; CmdTurnOff;
              CmdSetHumidity 80]
             sample_world)).
Proof.
  split; [reflexivity|]. split; [reflexivity|].
  exact (proj1 (@adapter_lifetime_calls vesync_consts obliging_vendor
                  sample_humidifier sample_world
                  [CmdSetHumidity 29; CmdSetMode "auto"; CmdSetMode "manual";
                   CmdTurnOff; CmdSetHumidity 80]
                  eq_refl)).
Defined.
